(** * OriginBookImportCSV3: the tabular reconciler of [OriginDataProcessor]

    A shallow embedding of [OriginDataProcessor.read_data_file] and
    [OriginDataProcessor._detect_delimiter] (src/OriginBookImportCSV3.py),
    with the properties of the parser stated and proved over it; and of
    [get_safe_filename], [is_origin_project_file], the key:value branch of
    [load_config] and the project path of [main], with theirs.

    Conventions of the embedding.
    - A Python [str] is a [string]; each character stands for the code point
      of the same number (U+0000 .. U+00FF).
    - The file is given as the list returned by [f.readlines()], or [None]
      when opening or reading it raises.
    - [dict]s used as maps are [gmap string string]; the one [dict] whose
      iteration order decides a result ([delimiter_counts]) is an association
      list in insertion order.
    - The instance attributes [column_units] and [column_order_from_dataname]
      are threaded as an explicit [Processor] state.
    - Console output is dropped, except the warnings ([Warning]) and the
      counter of skipped rows. *)

From Stdlib Require Import Ascii String.
From stdpp Require Import base list gmap strings.

Local Open Scope nat_scope.

(** ** Python string primitives *)

Module Py.

(** [str.isspace] on one character, for the code points below 256. *)
Definition isspace (c : ascii) : bool :=
  let n := nat_of_ascii c in
  ((9 <=? n) && (n <=? 13)) || ((28 <=? n) && (n <=? 32))
  || (n =? 133) || (n =? 160).

(** [not s] for a string. *)
Definition is_empty (s : string) : bool :=
  match s with EmptyString => true | String _ _ => false end.

Fixpoint lstrip (s : string) : string :=
  match s with
  | EmptyString => EmptyString
  | String c s' => if isspace c then lstrip s' else s
  end.

Fixpoint rstrip (s : string) : string :=
  match s with
  | EmptyString => EmptyString
  | String c s' =>
      let r := rstrip s' in
      if isspace c && is_empty r then EmptyString else String c r
  end.

(** [s.strip()] *)
Definition strip (s : string) : string := rstrip (lstrip s).

(** [s.startswith(p)] *)
Definition startswith (p s : string) : bool := String.prefix p s.

(** [s.startswith((p1, ..., pn))] *)
Definition startswith_any (ps : list string) (s : string) : bool :=
  existsb (fun p => startswith p s) ps.

(** [p in s] *)
Fixpoint contains (p s : string) : bool :=
  String.prefix p s ||
  match s with
  | EmptyString => false
  | String _ s' => contains p s'
  end.

(** [c in s] for a one-character [c]. *)
Fixpoint has_char (c : ascii) (s : string) : bool :=
  match s with
  | EmptyString => false
  | String x s' => Ascii.eqb x c || has_char c s'
  end.

(** [s.count(d)] for a one-character [d]. *)
Fixpoint count (d : ascii) (s : string) : nat :=
  match s with
  | EmptyString => 0
  | String c s' => (if Ascii.eqb c d then 1 else 0) + count d s'
  end.

(** [s.split(d)] for a one-character [d]: never empty, one more field
    than there are occurrences of [d]. *)
Fixpoint split (d : ascii) (s : string) : list string :=
  match s with
  | EmptyString => [EmptyString]
  | String c s' =>
      if Ascii.eqb c d then EmptyString :: split d s'
      else match split d s' with
           | h :: t => String c h :: t
           | [] => [String c EmptyString]
           end
  end.

(** [s.replace(' ', '')] *)
Fixpoint remove_spaces (s : string) : string :=
  match s with
  | EmptyString => EmptyString
  | String c s' =>
      if Ascii.eqb c " "%char then remove_spaces s' else String c (remove_spaces s')
  end.

(** [range(a, b)] *)
Definition range (a b : nat) : list nat := seq a (b - a).

(** [max(x :: rest, key=key)]: the first element whose key is maximal. *)
Definition max_by {A} (key : A → nat) (x : A) (rest : list A) : A :=
  fold_left (fun best y => if key best <? key y then y else best) rest x.

(** [l.index(x)] for an [x] known to occur; [None] stands for ValueError. *)
Fixpoint index (x : string) (l : list string) : option nat :=
  match l with
  | [] => None
  | y :: l' => if String.eqb y x then Some 0 else S <$> index x l'
  end.

(** [x in l] for a list of strings. *)
Definition mem (x : string) (l : list string) : bool :=
  existsb (String.eqb x) l.

End Py.

(** ** [_detect_delimiter] *)

Definition possible_delimiters : list ascii := [","%char; "009"%char; ";"%char; "|"%char].

(** The [dict] built by the counting loop, as its items in insertion order:
    the candidates that occur, each with its count. *)
Definition delimiter_counts (line : string) : list (ascii * nat) :=
  List.filter (fun dc => 0 <? dc.2)
              (map (fun delim => (delim, Py.count delim line)) possible_delimiters).

Definition _detect_delimiter (line : string) : ascii :=
  if Py.is_empty line || Py.is_empty (Py.strip line) then ","%char
  else
    match delimiter_counts line with
    | item :: items => (Py.max_by snd item items).1
    | [] => ","%char
    end.

(** ** Phase A: the unit declaration *)

Definition is_datum_name_line (line : string) : bool :=
  Py.startswith "AnalysisSetup" line && Py.contains "Datum.Name" line.

Definition is_datum_unit_line (line : string) : bool :=
  Py.startswith "AnalysisSetup" line && Py.contains "Datum.Unit" line.

(** [[h.strip() for h in fields if h.strip()]] *)
Definition stripped_nonempty (fields : list string) : list string :=
  List.filter (fun h => negb (Py.is_empty h)) (map Py.strip fields).

(** [lines[j]], for a [j] the loops keep below [len(lines)]. *)
Definition line_at (lines : list string) (j : nat) : string :=
  default EmptyString (lines !! j).

(** [for i, line in enumerate(lines): line = line.strip(); if P(line): ... break]:
    the index and the stripped text of the first line that satisfies [P],
    counting from [i]. *)
Fixpoint find_line_from (P : string → bool) (i : nat) (lines : list string)
  : option (nat * string) :=
  match lines with
  | [] => None
  | raw :: lines' =>
      let line := Py.strip raw in
      if P line then Some (i, line) else find_line_from P (S i) lines'
  end.

Definition find_line (P : string → bool) (lines : list string) : option (nat * string) :=
  find_line_from P 0 lines.

(** The inner loop [for j in range(...): unit_line = lines[j].strip(); if ...: ... break]
    over the indices [js]. *)
Fixpoint first_unit_line (lines : list string) (js : list nat) : option (nat * string) :=
  match js with
  | [] => None
  | j :: js' =>
      let unit_line := Py.strip (line_at lines j) in
      if is_datum_unit_line unit_line then Some (j, unit_line)
      else first_unit_line lines js'
  end.

(** The lookahead of the names line at index [i]. *)
Definition lookahead (lines : list string) (i : nat) : list nat :=
  Py.range (i + 1) (Nat.min (i + 10) (length lines)).

Definition find_unit_line (lines : list string) (i : nat) : option (nat * string) :=
  first_unit_line lines (lookahead lines i).

(** [for col, unit in items: d[col] = unit] *)
Definition dict_update (d : gmap string string) (items : list (string * string))
  : gmap string string :=
  fold_left (fun d cu => <[cu.1 := cu.2]> d) items d.

(** The pairs [zip(datum_name_headers, units)] of a names line and a units
    line, both already stripped, split on the delimiter of the names line. *)
Definition datum_pairs (delimiter : ascii) (line unit_line : string)
  : list (string * string) :=
  let parts := Py.split delimiter line in
  let unit_parts := Py.split delimiter unit_line in
  if (2 <? length parts) && (2 <? length unit_parts) then
    zip (stripped_nonempty (drop 2 parts)) (stripped_nonempty (drop 2 unit_parts))
  else [].

(** Step 1 of [read_data_file]: [unit_mapping]. *)
Definition discover_units (lines : list string) : gmap string string :=
  match find_line is_datum_name_line lines with
  | None => ∅
  | Some (i, line) =>
      let delimiter := _detect_delimiter line in
      let parts := Py.split delimiter line in
      if 2 <? length parts then
        match find_unit_line lines i with
        | None => ∅
        | Some (j, unit_line) =>
            dict_update ∅ (datum_pairs delimiter line unit_line)
        end
      else ∅
  end.

(** ** Phase B: the [DataName] line *)

Record DataName := {
  data_start_line : nat;
  delimiter : ascii;
  data_headers : list string
}.

(** Step 2 of [read_data_file]; [None] when [data_start_line] stays [-1]. *)
Definition find_dataname (lines : list string) : option DataName :=
  match find_line (Py.startswith "DataName") lines with
  | None => None
  | Some (i, line) =>
      let delimiter := _detect_delimiter line in
      let parts := Py.split delimiter line in
      Some {| data_start_line := i;
              delimiter := delimiter;
              data_headers := stripped_nonempty (drop 1 parts) |}
  end.

(** Step 3: [self.column_units], filled from [unit_mapping] along
    [data_headers]. *)
Definition reconcile (data_headers : list string) (unit_mapping : gmap string string)
  : gmap string string :=
  fold_left (fun column_units col =>
               match unit_mapping !! col with
               | Some unit => <[col := unit]> column_units
               | None => column_units
               end) data_headers ∅.

(** ** Step 4: the columns to extract *)

Inductive Warning :=
| MissingColumns (missing_columns available : list string)
| AllRequestedMissing
| NotDataValueLine (lineno : nat)
| MalformedDataValue (lineno : nat)
| ShortRow (lineno have want : nat).

Record Selection := {
  headers : list string;
  col_indices : list nat;
  selection_warnings : list Warning
}.

Definition valid_columns (need data_headers : list string) : list string :=
  List.filter (fun col => Py.mem col data_headers) need.

Definition missing_columns (need data_headers : list string) : list string :=
  List.filter (fun col => negb (Py.mem col data_headers)) need.

Definition all_columns (data_headers : list string) (w : list Warning) : Selection :=
  {| headers := data_headers;
     col_indices := Py.range 0 (length data_headers);
     selection_warnings := w |}.

Definition select_columns (need_columns : option (list string)) (data_headers : list string)
  : Selection :=
  match need_columns with
  | Some ((_ :: _) as need) =>
      let w := match missing_columns need data_headers with
               | [] => []
               | missing => [MissingColumns missing data_headers]
               end in
      match valid_columns need data_headers with
      | (_ :: _) as valid =>
          {| headers := valid;
             col_indices := omap (fun col => Py.index col data_headers) valid;
             selection_warnings := w |}
      | [] => all_columns data_headers (w ++ [AllRequestedMissing])
      end
  | _ => all_columns data_headers []
  end.

(** ** Phase C: the [DataValue] rows *)

Definition non_data_prefixes : list string :=
  ["SetupTitle"; "PrimitiveTest"; "TestParameter"; "AnalysisSetup";
   "Dimension1"; "Dimension2"; "#"].

Definition clean_value (val : string) : string :=
  let cleaned_val := Py.strip val in
  if Py.has_char " " cleaned_val
     && (Py.has_char "E" cleaned_val || Py.has_char "e" cleaned_val)
  then Py.remove_spaces cleaned_val
  else cleaned_val.

(** [cleaned_values.extend([''] * (n - len(cleaned_values)))] under its guard. *)
Definition pad_values (n : nat) (cleaned_values : list string) : list string :=
  if length cleaned_values <? n
  then cleaned_values ++ replicate (n - length cleaned_values) EmptyString
  else cleaned_values.

(** [cleaned_values] of a [DataValue] line split into [parts], after padding
    and before the selection. *)
Definition padded_values (data_headers : list string) (parts : list string) : list string :=
  pad_values (length data_headers) (map clean_value (drop 1 parts)).

Definition project (col_indices : list nat) (cleaned_values : list string) : list string :=
  map (fun idx => if idx <? length cleaned_values
                  then default EmptyString (cleaned_values !! idx)
                  else EmptyString) col_indices.

Definition has_data (selected_values : list string) : bool :=
  existsb (fun val => negb (Py.is_empty (Py.strip val))) selected_values.

(** What one iteration of the loop does with line [i]. *)
Inductive LineResult :=
| Skipped (w : list Warning)
| Kept (w : list Warning) (selected_values : list string).

Definition process_line (dn : DataName) (col_indices : list nat) (i : nat) (raw : string)
  : LineResult :=
  let line := Py.strip raw in
  if Py.is_empty line then Skipped []
  else if Py.startswith_any non_data_prefixes line then Skipped []
  else if negb (Py.startswith "DataValue" line) then Skipped [NotDataValueLine (i + 1)]
  else
    let parts := Py.split (delimiter dn) line in
    if length parts <? 2 then Skipped [MalformedDataValue (i + 1)]
    else
      let have := length (drop 1 parts) in
      let want := length (data_headers dn) in
      let w := if have <? want then [ShortRow (i + 1) have want] else [] in
      let selected_values := project col_indices (padded_values (data_headers dn) parts) in
      if has_data selected_values then Kept w selected_values else Skipped w.

Record Collected := {
  data_rows : list (list string);
  skipped_rows : nat;
  row_warnings : list Warning
}.

(** The loop [for i in range(data_start_line + 1, len(lines))], run on the
    lines from index [i] on. *)
Fixpoint collect_rows (dn : DataName) (col_indices : list nat) (i : nat) (rest : list string)
  : Collected :=
  match rest with
  | [] => {| data_rows := []; skipped_rows := 0; row_warnings := [] |}
  | raw :: rest' =>
      let c := collect_rows dn col_indices (S i) rest' in
      match process_line dn col_indices i raw with
      | Skipped w =>
          {| data_rows := data_rows c;
             skipped_rows := S (skipped_rows c);
             row_warnings := w ++ row_warnings c |}
      | Kept w selected_values =>
          {| data_rows := selected_values :: data_rows c;
             skipped_rows := skipped_rows c;
             row_warnings := w ++ row_warnings c |}
      end
  end.

(** ** Step 6: the frame and its column types *)

Inductive ParseError :=
| FileUnreadable            (* the read raised *)
| MissingColumnDeclaration  (* no DataName line *)
| EmptyResult.              (* no DataValue row kept *)

Record Processor := {
  column_units : gmap string string;
  column_order_from_dataname : list string
}.

Section Frame.

(** The numeric values of the frame and [pandas.to_numeric] on one string
    are those of the pandas library; the development is parametric in
    them. [None] is the parse failure. *)
Context {F : Type}.
Variable parse : string → option F.

(** A column of the frame: its strings as collected ([object] dtype), or
    numbers with [None] for NaN. *)
Inductive Column :=
| TextCol (values : list string)
| NumCol (values : list (option F)).

(** [pd.to_numeric(values, errors='coerce')]: a value that does not parse
    becomes NaN; nothing is raised. *)
Definition to_numeric_coerce (values : list string) : Column :=
  NumCol (map parse values).

(** [pd.DataFrame(data_rows, columns=headers)]: column [p] holds field [p]
    of every row. *)
Definition make_frame (data_rows : list (list string)) (headers : list string)
  : list (string * list string) :=
  imap (fun p col => (col, map (fun row => default EmptyString (row !! p)) data_rows))
       headers.

(** The loop [for col in headers: try: df[col] = pd.to_numeric(df[col],
    errors='coerce') except: ...], column by column. A label that names
    one column has that column replaced by the result of [to_numeric].
    For a label carried by several columns [df[col]] is a frame,
    [to_numeric] raises TypeError, and the handler leaves the columns as
    they are. *)
Definition convert_column (headers : list string) (c : string * list string)
  : string * Column :=
  if length (List.filter (String.eqb c.1) headers) =? 1
  then (c.1, to_numeric_coerce c.2)
  else (c.1, TextCol c.2).

Definition convert_types (headers : list string) (df : list (string * list string))
  : list (string * Column) :=
  map (convert_column headers) df.

Record Table := {
  df : list (string * Column);
  columns : list string;
  skipped : nat
}.

(** The three exits [return None, None, False] are told apart by the
    message printed before each. *)
Inductive Outcome :=
| Parsed (t : Table)
| Failed (e : ParseError).

Definition cleared : Processor :=
  {| column_units := ∅; column_order_from_dataname := [] |}.

Definition read_data_file (file : option (list string))
           (need_columns : option (list string)) (self : Processor)
  : Processor * list Warning * Outcome :=
  match file with
  | None => (self, [], Failed FileUnreadable)
  | Some lines =>
      let unit_mapping := discover_units lines in
      match find_dataname lines with
      | None => (cleared, [], Failed MissingColumnDeclaration)
      | Some dn =>
          let self' :=
            {| column_units := reconcile (data_headers dn) unit_mapping;
               column_order_from_dataname := data_headers dn |} in
          let sel := select_columns need_columns (data_headers dn) in
          let c := collect_rows dn (col_indices sel) (data_start_line dn + 1)
                                (drop (data_start_line dn + 1) lines) in
          let w := selection_warnings sel ++ row_warnings c in
          match data_rows c with
          | [] => (self', w, Failed EmptyResult)
          | (_ :: _) as rows =>
              (self', w,
               Parsed {| df := convert_types (headers sel) (make_frame rows (headers sel));
                         columns := headers sel;
                         skipped := skipped_rows c |})
          end
      end
  end.

End Frame.

Arguments Column : clear implicits.
Arguments Table : clear implicits.
Arguments Outcome : clear implicits.

(** ** A reader of numeric literals *)

(** A number [mantissa * 10 ^ exponent]. *)
Record Decimal := { mantissa : Z; exponent : Z }.

Definition digit_of (c : ascii) : option Z := Z.of_nat <$> Ascii.is_nat c.

Fixpoint read_digits (s : string) (acc : Z) (n : nat) : Z * nat * string :=
  match s with
  | EmptyString => (acc, n, EmptyString)
  | String c s' =>
      match digit_of c with
      | Some d => read_digits s' (10 * acc + d)%Z (S n)
      | None => (acc, n, s)
      end
  end.

Definition read_sign (s : string) : bool * string :=
  match s with
  | String c s' =>
      if Ascii.eqb c "-"%char then (true, s')
      else if Ascii.eqb c "+"%char then (false, s')
      else (false, s)
  | EmptyString => (false, s)
  end.

Definition signed (neg : bool) (z : Z) : Z := if neg then (- z)%Z else z.

(** Modelled from the spec: the number parser of the type inference, which
    is the pandas library's and not part of the repository. It accepts
    "standard decimal and scientific-notation forms": an optional sign,
    digits with an optional fraction, an optional exponent; the empty string
    does not parse and so becomes the missing value. *)
Definition parse_decimal (s : string) : option Decimal :=
  let '(neg, s1) := read_sign s in
  let '(ip, n1, s2) := read_digits s1 0%Z 0 in
  let '(m, n2, s3) :=
    match s2 with
    | String c s2' => if Ascii.eqb c "."%char then read_digits s2' ip 0 else (ip, 0, s2)
    | EmptyString => (ip, 0, s2)
    end in
  if n1 + n2 =? 0 then None
  else
    match s3 with
    | EmptyString => Some {| mantissa := signed neg m; exponent := - Z.of_nat n2 |}
    | String c s4 =>
        if Ascii.eqb c "e"%char || Ascii.eqb c "E"%char then
          let '(eneg, s5) := read_sign s4 in
          let '(e, n3, s6) := read_digits s5 0%Z 0 in
          if (n3 =? 0) || negb (Py.is_empty s6) then None
          else Some {| mantissa := signed neg m;
                       exponent := (signed eneg e - Z.of_nat n2)%Z |}
        else None
    end.

(** ** Vocabulary of the properties *)

(** [r] is the first candidate, in the order of [possible_delimiters], whose
    count [cnt] is maximal. When every count is zero this is the comma. *)
Definition first_maximal_by (cnt : ascii → nat) (r : ascii) : Prop :=
  ∃ i, possible_delimiters !! i = Some r
       ∧ (∀ d, d ∈ possible_delimiters → cnt d ≤ cnt r)
       ∧ (∀ j d, j < i → possible_delimiters !! j = Some d → cnt d < cnt r).

Definition first_maximal (line : string) (r : ascii) : Prop :=
  first_maximal_by (fun d => Py.count d line) r.

(** The items and the result of the counting loop of [_detect_delimiter]
    for arbitrary counts. *)
Definition counted (cnt : ascii → nat) : list (ascii * nat) :=
  List.filter (fun dc => 0 <? dc.2)
              (map (fun delim => (delim, cnt delim)) possible_delimiters).

Definition chosen (cnt : ascii → nat) : ascii :=
  match counted cnt with
  | item :: items => (Py.max_by snd item items).1
  | [] => ","%char
  end.

(** A line after the [DataName] line that yields no data row, in the words
    of the specification: blank, or with a non-data prefix or without the
    data prefix, or malformed (fewer than two fields), or with every
    selected value empty. *)
Definition unusable (dn : DataName) (col_indices : list nat) (raw : string) : bool :=
  let line := Py.strip raw in
  let parts := Py.split (delimiter dn) line in
  Py.is_empty line
  || Py.startswith_any non_data_prefixes line
  || negb (Py.startswith "DataValue" line)
  || (length parts <? 2)
  || negb (has_data (project col_indices (padded_values (data_headers dn) parts))).

(** The selection the specification describes: the matched names in the
    order of the declaration. *)
Definition matched_in_declared_order (D R : list string) : list string :=
  filter (fun d => d ∈ R) D.

(** The outcome of the parse as a function of the selection. *)
Definition outcome_of {F : Type} (parse : string → option F) (dn : DataName)
           (lines : list string) (hs : list string) (idx : list nat) : Outcome F :=
  let c := collect_rows dn idx (data_start_line dn + 1)
                        (drop (data_start_line dn + 1) lines) in
  match data_rows c with
  | [] => Failed EmptyResult
  | (_ :: _) as rows =>
      Parsed {| df := convert_types parse hs (make_frame rows hs);
                columns := hs;
                skipped := skipped_rows c |}
  end.

(** Some line at most [n] lines after line [i] is a unit line. *)
Definition unit_line_within (n : nat) (lines : list string) (i : nat) : Prop :=
  ∃ j, i < j ≤ i + n ∧ j < length lines
       ∧ is_datum_unit_line (Py.strip (line_at lines j)) = true.

(** The fields of a declaration line after its two marker fields, as split. *)
Definition raw_fields (delimiter : ascii) (line : string) : list string :=
  drop 2 (Py.split delimiter line).

(** The unit at raw position [k] of the units line is paired with the name
    at an earlier raw position of the names line, and not with the name at
    raw position [k]. *)
Definition paired_with_earlier_name (d : ascii) (line unit_line : string) (k : nat)
  : Prop :=
  ∃ u, raw_fields d unit_line !! k = Some u
       ∧ (∃ k' n, k' < k ∧ raw_fields d line !! k' = Some n
                  ∧ (Py.strip n, Py.strip u) ∈ datum_pairs d line unit_line)
       ∧ (∀ n, raw_fields d line !! k = Some n →
               (Py.strip n, Py.strip u) ∉ datum_pairs d line unit_line).

(** Some field before raw position [k] is empty once stripped. *)
Definition empty_field_before (fields : list string) (k : nat) : Prop :=
  ∃ j v, j < k ∧ fields !! j = Some v ∧ Py.strip v = EmptyString.

(** ** Sample files *)

(** A line of a file, with its line end. *)
Definition ln (s : string) : string := s +:+ String "010"%char EmptyString.

(** A line made of one tab. *)
Definition tab_only_line : string := String "009"%char EmptyString.

Definition two_column_file : list string :=
  [ ln "AnalysisSetup,Datum.Name,Temp,Pressure";
    ln "AnalysisSetup,Datum.Unit,C,kPa";
    ln "DataName,Temp,Pressure";
    ln "DataValue,25.0,101.3";
    ln "DataValue,30.0,99.8" ].

Definition text_column_file : list string :=
  [ ln "DataName,Label"; ln "DataValue,abc" ].

Definition no_dataname_file : list string :=
  [ ln "AnalysisSetup,Datum.Name,Temp"; ln "DataValue,25.0" ].

Definition two_columns : DataName :=
  {| data_start_line := 2; delimiter := ","%char; data_headers := ["Temp"; "Pressure"] |}.

Definition no_rows_file : list string :=
  [ ln "DataName,Temp,Pressure";
    ln "";
    ln "# comment";
    ln "Dimension1,2";
    ln "Remark,1,2";
    ln "DataValue";
    ln "DataValue,," ].

Definition pressure_temp_table : Table Decimal :=
  {| df := [("Pressure", NumCol [Some {| mantissa := 1013; exponent := -1 |};
                                 Some {| mantissa := 998; exponent := -1 |}]);
            ("Temp", NumCol [Some {| mantissa := 250; exponent := -1 |};
                             Some {| mantissa := 300; exponent := -1 |}])];
     columns := ["Pressure"; "Temp"];
     skipped := 0 |}.

Definition late_unit_file : list string :=
  ln "AnalysisSetup,Datum.Name,Temp,Pressure"
  :: replicate 9 (ln "TestParameter,Note")
  ++ [ ln "AnalysisSetup,Datum.Unit,C,kPa";
       ln "DataName,Temp,Pressure";
       ln "DataValue,25.0,101.3" ].

Definition near_unit_file : list string :=
  [ ln "AnalysisSetup,Datum.Name,Temp,Pressure";
    ln "TestParameter,Note";
    ln "AnalysisSetup,Datum.Unit,C,kPa";
    ln "AnalysisSetup,Datum.Unit,K,Pa";
    ln "DataName,Temp,Pressure";
    ln "DataValue,25.0,101.3" ].

Definition names_with_gap : string := "AnalysisSetup,Datum.Name,A,,C".

Definition units_with_gap : string := "AnalysisSetup,Datum.Unit,a,,c".

Definition names_without_gap : string := "AnalysisSetup,Datum.Name,A,B,C".


(** ** Names of workbooks and project files *)

(** The two families of [os.path]: [posixpath] and [ntpath]. *)
Inductive OS := Posix | Windows.

(** The path separators of [os.path]: [sep], and [altsep] where there is
    one. *)
Definition is_sep (os : OS) (c : ascii) : bool :=
  match os with
  | Posix => Ascii.eqb c "/"%char
  | Windows => Ascii.eqb c "\"%char || Ascii.eqb c "/"%char
  end.

Definition is_dot (c : ascii) : bool := Ascii.eqb c "."%char.

(** The index of the last character of [s] that satisfies [P]; [None]
    stands for the [-1] of [str.rfind]. *)
Fixpoint rfind (P : ascii → bool) (s : string) : option nat :=
  match s with
  | EmptyString => None
  | String c s' =>
      match rfind P s' with
      | Some i => Some (S i)
      | None => if P c then Some 0 else None
      end
  end.

(** [s[k]] as a test: the character at index [k] is not a dot. *)
Definition not_dot_at (s : string) (k : nat) : bool :=
  match String.get k s with
  | Some c => negb (is_dot c)
  | None => false
  end.

(** [os.path.splitext] ([genericpath._splitext]): the extension starts at
    the last dot, when that dot comes after the last separator and after a
    character of the file name that is not a dot. *)
Definition splitext (os : OS) (p : string) : string * string :=
  let filenameIndex := match rfind (is_sep os) p with Some i => S i | None => 0 end in
  match rfind is_dot p with
  | Some dotIndex =>
      if (filenameIndex <=? dotIndex)
         && existsb (not_dot_at p) (Py.range filenameIndex dotIndex)
      then (String.substring 0 dotIndex p,
            String.substring dotIndex (String.length p - dotIndex) p)
      else (p, EmptyString)
  | None => (p, EmptyString)
  end.

(** [c.isdigit()] for the code points below 256. *)
Definition isdigit (c : ascii) : bool :=
  let n := nat_of_ascii c in
  ((48 <=? n) && (n <=? 57)) || (n =? 178) || (n =? 179) || (n =? 185).

(** The class [\w] of [re] on a [str], for the code points below 256:
    the alphanumeric characters and the underscore. *)
Definition is_word (c : ascii) : bool :=
  let n := nat_of_ascii c in
  ((48 <=? n) && (n <=? 57)) || ((65 <=? n) && (n <=? 90))
  || ((97 <=? n) && (n <=? 122)) || (n =? 95)
  || (n =? 170) || (n =? 178) || (n =? 179) || (n =? 181) || (n =? 185)
  || (n =? 186) || ((188 <=? n) && (n <=? 190))
  || ((192 <=? n) && (n <=? 214)) || ((216 <=? n) && (n <=? 246))
  || (248 <=? n).

(** A character outside the class [[^\w\s\-]]. *)
Definition is_safe_char (c : ascii) : bool :=
  is_word c || Py.isspace c || Ascii.eqb c "-"%char.

(** [re.sub(r'[^\w\s\-]', '_', s)] *)
Fixpoint sub_unsafe (s : string) : string :=
  match s with
  | EmptyString => EmptyString
  | String c s' => String (if is_safe_char c then c else "_"%char) (sub_unsafe s')
  end.

(** [re.sub(r'_+', '_', s)] *)
Fixpoint collapse_underscores (s : string) : string :=
  match s with
  | EmptyString => EmptyString
  | String c s' =>
      if Ascii.eqb c "_"%char then
        match s' with
        | String c' _ =>
            if Ascii.eqb c' "_"%char then collapse_underscores s'
            else String c (collapse_underscores s')
        | EmptyString => String c EmptyString
        end
      else String c (collapse_underscores s')
  end.

(** [s.isspace()] *)
Fixpoint all_space (s : string) : bool :=
  match s with
  | EmptyString => true
  | String c s' => Py.isspace c && all_space s'
  end.

Definition str_isspace (s : string) : bool := negb (Py.is_empty s) && all_space s.

(** [get_safe_filename], for a [max_length] that is not negative (the one
    call leaves it at 30). *)
Definition get_safe_filename (os : OS) (filename : string) (max_length : nat) : string :=
  let base_name := (splitext os filename).1 in
  let safe_name := sub_unsafe base_name in
  let safe_name := collapse_underscores safe_name in
  let safe_name :=
    if max_length <? String.length safe_name
    then String.substring 0 max_length safe_name
    else safe_name in
  let safe_name :=
    match safe_name with
    | String c _ => if isdigit c then "Data_" +:+ safe_name else safe_name
    | EmptyString => safe_name
    end in
  let safe_name :=
    if Py.is_empty safe_name || str_isspace safe_name then "DataBook" else safe_name in
  Py.strip safe_name.

(** [c.lower()] for the code points below 256. *)
Definition lower_char (c : ascii) : ascii :=
  let n := nat_of_ascii c in
  if ((65 <=? n) && (n <=? 90))
     || ((192 <=? n) && (n <=? 222) && negb (n =? 215))
  then ascii_of_nat (n + 32)
  else c.

(** [s.lower()] *)
Fixpoint lower (s : string) : string :=
  match s with
  | EmptyString => EmptyString
  | String c s' => String (lower_char c) (lower s')
  end.

Definition valid_extensions : list string :=
  [".opj"; ".opju"; ".ogg"; ".ogw"; ".otp"; ".otpu"].

Definition is_origin_project_file (os : OS) (file_path : string) : bool :=
  if Py.is_empty file_path then false
  else Py.mem (lower (splitext os file_path).2) valid_extensions.



(** Every character of [s] satisfies [P]. *)
Fixpoint string_forall (P : ascii → bool) (s : string) : bool :=
  match s with
  | EmptyString => true
  | String c s' => P c && string_forall P s'
  end.

(** The first character of [s] satisfies [P]; false for the empty string. *)
Definition head_is (P : ascii → bool) (s : string) : bool :=
  match s with
  | EmptyString => false
  | String c _ => P c
  end.

(** The index after the last separator of [p]: where its last component
    starts. *)
Definition filename_index (os : OS) (p : string) : nat :=
  match rfind (is_sep os) p with Some i => S i | None => 0 end.

(** The last component of [root] has a character that is not a dot. *)
Definition names_a_file (os : OS) (root : string) : bool :=
  existsb (not_dot_at root) (Py.range (filename_index os root) (String.length root)).

(** ** The key:value form of the configuration *)

(** A value of the configuration read in the key:value form: a string, or
    the list made of a NeedCol value that holds a bar. *)
Inductive ConfigValue :=
| VStr (s : string)
| VList (l : list string).

(** [pair.split(':', 1)] for a [pair] that holds a colon: the text before
    the first colon and the text after it. *)
Fixpoint split_first (d : ascii) (s : string) : string * string :=
  match s with
  | EmptyString => (EmptyString, EmptyString)
  | String c s' =>
      if Ascii.eqb c d then (EmptyString, s')
      else let '(k, v) := split_first d s' in (String c k, v)
  end.

(** The body of the loop [for pair in content.split(',')] of [load_config]. *)
Definition add_pair (config : gmap string ConfigValue) (pair : string)
  : gmap string ConfigValue :=
  if Py.has_char ":"%char pair then
    let '(key, value) := split_first ":"%char pair in
    let key := Py.strip key in
    let value := Py.strip value in
    if String.eqb key "NeedCol" && Py.has_char "|"%char value
    then <[key := VList (map Py.strip (Py.split "|"%char value))]> config
    else <[key := VStr value]> config
  else config.

(** The [else] branch of [load_config], for a content that does not start
    with a brace: the configuration read from [key:value] pairs. *)
Definition parse_pairs (content : string) : gmap string ConfigValue :=
  fold_left add_pair (Py.split ","%char content) ∅.

(** The step [if 'NeedCol' in config] of [load_config], on a configuration
    whose values are strings and lists. *)
Definition normalize_needcol (config : gmap string ConfigValue)
  : gmap string ConfigValue :=
  match config !! "NeedCol" with
  | Some (VStr s) => <["NeedCol" := VList (map Py.strip (Py.split ","%char s))]> config
  | Some (VList _) => config
  | None => config
  end.



(** ** Vocabulary of the further properties *)

(** The number of cells of a column of the frame. *)
Definition cells {F : Type} (c : Column F) : nat :=
  match c with
  | TextCol values => length values
  | NumCol values => length values
  end.

(** A found line with its index moved by [k]. *)
Definition shift_line (k : nat) (found : nat * string) : nat * string :=
  (found.1 + k, found.2).

Definition repeated_name_file : list string :=
  [ ln "AnalysisSetup,Datum.Name,T,P,T";
    ln "AnalysisSetup,Datum.Unit,C,kPa,K";
    ln "DataName,T,P";
    ln "DataValue,1,2" ].


(** * Properties *)

(** ** The delimiter detector *)

Lemma strip_of_empty line :
  Py.is_empty line = true → Py.is_empty (Py.strip line) = true.
Proof. by destruct line. Qed.

Section FirstMaximal.

Variable cnt : ascii → nat.

Ltac split_candidates :=
  repeat match goal with
         | H : _ ∈ _ :: _ |- _ => apply elem_of_cons in H as [->|H]
         | H : _ ∈ [] |- _ => by apply elem_of_nil in H
         end.

Ltac compare_counts :=
  repeat match goal with
         | |- context [0 <? cnt ?q] =>
             destruct (Nat.ltb_spec 0 (cnt q)); cbn [List.filter fold_left fst snd]
         | |- context [cnt ?p <? cnt ?q] =>
             destruct (Nat.ltb_spec (cnt p) (cnt q)); cbn [List.filter fold_left fst snd]
         end.

Lemma chosen_first_maximal : first_maximal_by cnt (chosen cnt).
Proof.
  unfold first_maximal_by, chosen, counted, possible_delimiters, Py.max_by.
  cbn [map List.filter snd].
  compare_counts.
  all: first [ exists 0; split; [reflexivity|] | exists 1; split; [reflexivity|]
             | exists 2; split; [reflexivity|] | exists 3; split; [reflexivity|] ].
  all: split; [ intros x Hx; split_candidates; lia
              | intros [|[|[|[|j]]]] x Hj Hx; simplify_eq/=; lia ].
Qed.

End FirstMaximal.

(** C4, as the code has it: on a line that is empty or only whitespace (a
    line of tabs included) the detector answers the comma; on every other
    line it answers the candidate among comma, tab, semicolon and bar with
    the highest count, the first such in that order, which is the comma when
    none occurs. It is a total function. *)
Theorem detect_delimiter_first_maximal (line : string) :
  if Py.is_empty (Py.strip line)
  then _detect_delimiter line = ","%char
  else first_maximal line (_detect_delimiter line).
Proof.
  unfold _detect_delimiter.
  destruct (Py.is_empty (Py.strip line)) eqn:Hs.
  - by rewrite orb_true_r.
  - destruct (Py.is_empty line) eqn:He.
    + apply strip_of_empty in He. congruence.
    + apply (chosen_first_maximal (fun d => Py.count d line)).
Qed.

(** C4 fails as stated: the line made of one tab has one tab and no other
    candidate, and the detector answers the comma. *)
Lemma detect_delimiter_tab_only_line :
  _detect_delimiter tab_only_line = ","%char
  ∧ Py.count "009"%char tab_only_line = 1
  ∧ ¬ first_maximal tab_only_line (_detect_delimiter tab_only_line).
Proof.
  split; [reflexivity|]. split; [reflexivity|].
  intros (i & _ & Hmax & _).
  assert (Hin : "009"%char ∈ possible_delimiters).
  { unfold possible_delimiters. set_solver. }
  apply Hmax in Hin. vm_compute in Hin. lia.
Qed.

(** ** Padding of a data row *)

Lemma pad_values_length (n : nat) (vs : list string) :
  length (pad_values n vs) = Nat.max (length vs) n.
Proof.
  unfold pad_values. destruct (Nat.ltb_spec (length vs) n).
  - rewrite length_app, length_replicate. lia.
  - lia.
Qed.

(** C8, as the code has it: after cleaning and padding, a data row has as
    many values as the longer of the row as read and the declared columns;
    so never fewer than the declared columns, and exactly as many when the
    row as read has no more values than columns. A longer row keeps its
    extra values. *)
Theorem padded_values_length (data_headers parts : list string) :
  length (padded_values data_headers parts)
  = Nat.max (length parts - 1) (length data_headers)
  ∧ length data_headers ≤ length (padded_values data_headers parts)
  ∧ (length (padded_values data_headers parts) = length data_headers
     ↔ length parts - 1 ≤ length data_headers).
Proof.
  unfold padded_values.
  rewrite pad_values_length, length_map, length_drop. lia.
Qed.

(** C8 fails as stated: a row of three values under two declared columns
    keeps three values. *)
Lemma padded_values_long_row :
  padded_values ["a"; "b"] (Py.split ","%char "DataValue,1,2,3") = ["1"; "2"; "3"]
  ∧ length (padded_values ["a"; "b"] (Py.split ","%char "DataValue,1,2,3"))
    ≠ length ["a"; "b"].
Proof. split; [reflexivity | vm_compute; lia]. Qed.

(** ** The first line that satisfies a test *)

Lemma find_line_from_None (P : string → bool) (i : nat) (lines : list string) :
  find_line_from P i lines = None
  ↔ Forall (fun raw => P (Py.strip raw) = false) lines.
Proof.
  revert i. induction lines as [|raw lines IH]; intros i; simpl.
  - split; [constructor | done].
  - destruct (P (Py.strip raw)) eqn:HP.
    + split; [done|]. intros H. apply Forall_cons in H as [H _]. congruence.
    + rewrite IH. split; [by constructor|]. intros H. by apply Forall_cons in H as [_ H].
Qed.

Lemma find_line_from_Some (P : string → bool) (i : nat) (lines : list string) j line :
  find_line_from P i lines = Some (j, line) →
  i ≤ j ∧ j - i < length lines
  ∧ line = Py.strip (line_at lines (j - i)) ∧ P line = true.
Proof.
  revert i. induction lines as [|raw lines IH]; intros i; simpl; [done|].
  destruct (P (Py.strip raw)) eqn:HP.
  - intros [= <- <-]. rewrite Nat.sub_diag. repeat split; [lia | lia | done].
  - intros H. apply IH in H as (Hle & Hlt & -> & HPl).
    replace (j - i) with (S (j - S i)) by lia.
    repeat split; [lia | lia | done].
Qed.

(** ** Failure without a [DataName] line *)

Section Parse.

Context {F : Type}.
Variable parse : string → option F.

Lemma read_data_file_found lines need self dn :
  find_dataname lines = Some dn →
  read_data_file parse (Some lines) need self =
  let self' := {| column_units := reconcile (data_headers dn) (discover_units lines);
                  column_order_from_dataname := data_headers dn |} in
  let sel := select_columns need (data_headers dn) in
  let c := collect_rows dn (col_indices sel) (data_start_line dn + 1)
                        (drop (data_start_line dn + 1) lines) in
  let w := selection_warnings sel ++ row_warnings c in
  match data_rows c with
  | [] => (self', w, Failed EmptyResult)
  | (_ :: _) as rows =>
      (self', w,
       Parsed {| df := convert_types parse (headers sel) (make_frame rows (headers sel));
                 columns := headers sel;
                 skipped := skipped_rows c |})
  end.
Proof. intros H. unfold read_data_file. by rewrite H. Qed.

(** C3: a file none of whose lines, once trimmed, begins with [DataName]
    makes the parse fail with MissingColumnDeclaration; the outcome carries
    no table. *)
Theorem missing_dataname_fails lines need self :
  Forall (fun raw => Py.startswith "DataName" (Py.strip raw) = false) lines →
  read_data_file parse (Some lines) need self
  = (cleared, [], Failed MissingColumnDeclaration).
Proof.
  intros H. unfold read_data_file, find_dataname, find_line.
  apply (find_line_from_None _ 0) in H. by rewrite H.
Qed.

End Parse.

(** ** Failure without data rows *)

Lemma process_line_unusable dn col_indices i raw :
  unusable dn col_indices raw = true ↔
  ∃ w, process_line dn col_indices i raw = Skipped w.
Proof.
  unfold unusable, process_line.
  cbn zeta.
  destruct (Py.is_empty (Py.strip raw)); [split; eauto|].
  destruct (Py.startswith_any non_data_prefixes (Py.strip raw)); [split; eauto|].
  destruct (Py.startswith "DataValue" (Py.strip raw)); [|split; eauto].
  destruct (length (Py.split (delimiter dn) (Py.strip raw)) <? 2); [split; eauto|].
  destruct (has_data _); cbn [orb negb].
  - split; [done | by intros [w Hw]].
  - split; eauto.
Qed.

Lemma collect_rows_none dn col_indices i rest :
  Forall (fun raw => unusable dn col_indices raw = true) rest →
  data_rows (collect_rows dn col_indices i rest) = [].
Proof.
  revert i. induction rest as [|raw rest IH]; intros i H; [done|].
  apply Forall_cons in H as [Hraw Hrest].
  simpl. apply (process_line_unusable _ _ i) in Hraw as [w ->]. simpl. by apply IH.
Qed.

(** C7: when the [DataName] line is found and every line after it is
    unusable (blank, non-data, malformed or empty after the projection), the
    parse fails with EmptyResult and carries no table. *)
Theorem no_data_rows_fails {F : Type} (parse : string → option F)
        lines need self dn :
  find_dataname lines = Some dn →
  Forall (fun raw =>
            unusable dn (col_indices (select_columns need (data_headers dn))) raw = true)
         (drop (data_start_line dn + 1) lines) →
  ∃ w, read_data_file parse (Some lines) need self
       = ({| column_units := reconcile (data_headers dn) (discover_units lines);
             column_order_from_dataname := data_headers dn |},
          w, Failed EmptyResult).
Proof.
  intros Hdn Hall. rewrite (read_data_file_found parse _ _ _ _ Hdn). cbn zeta.
  rewrite (collect_rows_none _ _ _ _ Hall). eauto.
Qed.

(** ** Units kept after the reconciliation *)

Lemma reconcile_fold_lookup (um : gmap string string) (D : list string)
      (acc : gmap string string) (col : string) :
  fold_left (fun column_units c =>
               match um !! c with
               | Some unit => <[c := unit]> column_units
               | None => column_units
               end) D acc !! col
  = if decide (col ∈ D)
    then match um !! col with Some u => Some u | None => acc !! col end
    else acc !! col.
Proof.
  revert acc. induction D as [|c D IH]; intros acc; cbn [fold_left].
  - by rewrite decide_False by set_solver.
  - rewrite IH. destruct (decide (col = c)) as [->|Hne].
    + rewrite (decide_True (P := c ∈ c :: D)) by set_solver.
      destruct (um !! c) eqn:Hc.
      * by destruct (decide (c ∈ D)); [|rewrite lookup_insert_eq].
      * by destruct (decide (c ∈ D)).
    + assert (acc' : (match um !! c with
                      | Some unit => <[c:=unit]> acc
                      | None => acc
                      end) !! col = acc !! col).
      { destruct (um !! c); [by rewrite lookup_insert_ne|done]. }
      rewrite acc'.
      destruct (decide (col ∈ D)).
      * by rewrite decide_True by (by apply list_elem_of_further).
      * rewrite decide_False; [done|]. rewrite elem_of_cons. tauto.
Qed.

Lemma reconcile_lookup (D : list string) (um : gmap string string) (col : string) :
  reconcile D um !! col = if decide (col ∈ D) then um !! col else None.
Proof.
  unfold reconcile. rewrite reconcile_fold_lookup, lookup_empty.
  destruct (decide (col ∈ D)); [|done]. by destruct (um !! col).
Qed.

Lemma read_data_file_state {F : Type} (parse : string → option F) lines need self :
  (read_data_file parse (Some lines) need self).1.1
  = match find_dataname lines with
    | Some dn => {| column_units := reconcile (data_headers dn) (discover_units lines);
                    column_order_from_dataname := data_headers dn |}
    | None => cleared
    end.
Proof.
  unfold read_data_file.
  destruct (find_dataname lines) as [dn|]; [|done]. by destruct (data_rows _).
Qed.

(** C9: after a parse of a file that could be read, a column has a unit
    exactly when it is in the declared order and the unit declaration names
    it, and the unit is the declared one. So every key of the unit map is a
    declared column, a unit whose name is only in the unit declaration is
    not kept, and a declared column without a declared unit has none. *)
Theorem column_units_within_order {F : Type} (parse : string → option F)
        (lines : list string) (need : option (list string)) (self : Processor) :
  let self' := (read_data_file parse (Some lines) need self).1.1 in
  ∀ col,
    column_units self' !! col
    = (if decide (col ∈ column_order_from_dataname self')
       then discover_units lines !! col else None)
    ∧ (is_Some (column_units self' !! col) → col ∈ column_order_from_dataname self').
Proof.
  intros self' col.
  assert (Heq : column_units self' !! col
                = if decide (col ∈ column_order_from_dataname self')
                  then discover_units lines !! col else None).
  { subst self'. rewrite read_data_file_state.
    destruct (find_dataname lines) as [dn|];
      cbn [column_units column_order_from_dataname cleared].
    - apply reconcile_lookup.
    - rewrite lookup_empty. by rewrite decide_False by set_solver. }
  split; [done|]. rewrite Heq. destruct (decide _); [done|]. by intros [? ?].
Qed.

(** ** The requested columns *)

Lemma mem_elem_of (x : string) (l : list string) :
  Py.mem x l = bool_decide (x ∈ l).
Proof.
  unfold Py.mem. induction l as [|y l IH]; cbn [existsb].
  - symmetry. apply bool_decide_eq_false_2, not_elem_of_nil.
  - rewrite IH. destruct (String.eqb_spec x y) as [->|Hne]; cbn [orb].
    + symmetry. apply bool_decide_eq_true_2, list_elem_of_here.
    + apply bool_decide_ext. rewrite elem_of_cons. tauto.
Qed.

Lemma valid_columns_filter (need D : list string) :
  valid_columns need D = filter (fun col => col ∈ D) need.
Proof.
  unfold valid_columns. induction need as [|x need IH]; [done|].
  cbn [List.filter]. rewrite filter_cons, mem_elem_of, IH.
  destruct (decide (x ∈ D)).
  - by rewrite bool_decide_eq_true_2.
  - by rewrite bool_decide_eq_false_2.
Qed.

Lemma missing_columns_filter (need D : list string) :
  missing_columns need D = filter (fun col => col ∉ D) need.
Proof.
  unfold missing_columns. induction need as [|x need IH]; [done|].
  cbn [List.filter]. rewrite filter_cons, mem_elem_of, IH.
  destruct (decide (x ∈ D)).
  - rewrite bool_decide_eq_true_2 by done. by rewrite decide_False by tauto.
  - rewrite bool_decide_eq_false_2 by done. by rewrite decide_True.
Qed.

Lemma valid_columns_idem (need D : list string) :
  valid_columns (valid_columns need D) D = valid_columns need D.
Proof.
  unfold valid_columns. induction need as [|x need IH]; [done|].
  cbn [List.filter]. destruct (Py.mem x D) eqn:Hx; [|done].
  cbn [List.filter]. by rewrite Hx, IH.
Qed.

Lemma select_columns_headers (need D : list string) :
  headers (select_columns (Some need) D)
  = if decide (valid_columns need D = []) then D else valid_columns need D.
Proof.
  unfold select_columns. destruct need as [|x need]; [done|].
  by destruct (valid_columns (x :: need) D).
Qed.

Lemma select_columns_matched (need D : list string) :
  headers (select_columns (Some (valid_columns need D)) D)
  = headers (select_columns (Some need) D)
  ∧ col_indices (select_columns (Some (valid_columns need D)) D)
    = col_indices (select_columns (Some need) D).
Proof.
  unfold select_columns. destruct need as [|x need]; [done|].
  destruct (valid_columns (x :: need) D) as [|v vs] eqn:Hv; [done|].
  rewrite <- Hv, valid_columns_idem, Hv. done.
Qed.

Lemma select_columns_missing (need D : list string) :
  missing_columns need D ≠ [] →
  MissingColumns (missing_columns need D) D
  ∈ selection_warnings (select_columns (Some need) D).
Proof.
  unfold select_columns. destruct need as [|x need]; [done|].
  destruct (missing_columns (x :: need) D) as [|m ms]; [done|]. intros _.
  destruct (valid_columns (x :: need) D); cbn; apply list_elem_of_here.
Qed.

Lemma read_data_file_outcome {F : Type} (parse : string → option F)
      lines need self dn :
  find_dataname lines = Some dn →
  (read_data_file parse (Some lines) need self).2
  = outcome_of parse dn lines
               (headers (select_columns need (data_headers dn)))
               (col_indices (select_columns need (data_headers dn))).
Proof.
  intros Hdn. rewrite (read_data_file_found parse _ _ _ _ Hdn).
  unfold outcome_of. cbn zeta. by destruct (data_rows _).
Qed.

Lemma read_data_file_warnings {F : Type} (parse : string → option F)
      lines need self dn :
  find_dataname lines = Some dn →
  ∃ w, (read_data_file parse (Some lines) need self).1.2
       = selection_warnings (select_columns need (data_headers dn)) ++ w.
Proof.
  intros Hdn. rewrite (read_data_file_found parse _ _ _ _ Hdn).
  cbn zeta. destruct (data_rows _); eauto.
Qed.

Lemma outcome_of_columns {F : Type} (parse : string → option F) dn lines hs idx t :
  outcome_of parse dn lines hs idx = Parsed t → columns t = hs.
Proof.
  unfold outcome_of. cbn zeta. destruct (data_rows _); [done|]. by intros [= <-].
Qed.

(** C6: of a requested list, the names that are in the declared order are
    kept and the others are reported in a warning, which changes nothing in
    the outcome (it is the outcome of asking for the kept names alone); the
    selection is the kept names when there is one, and the whole declared
    order only when there is none. *)
Theorem requested_columns_selection {F : Type} (parse : string → option F)
        (lines need : list string) (self : Processor) (dn : DataName) :
  find_dataname lines = Some dn →
  let D := data_headers dn in
  let matched := filter (fun col => col ∈ D) need in
  let missing := filter (fun col => col ∉ D) need in
  let r := read_data_file parse (Some lines) (Some need) self in
  headers (select_columns (Some need) D) = (if decide (matched = []) then D else matched)
  ∧ (missing ≠ [] → MissingColumns missing D ∈ r.1.2)
  ∧ r.2 = (read_data_file parse (Some lines) (Some matched) self).2
  ∧ (∀ t, r.2 = Parsed t → columns t = headers (select_columns (Some need) D)).
Proof.
  intros Hdn D matched missing r. subst r matched missing D.
  rewrite <- valid_columns_filter, <- missing_columns_filter.
  rewrite !(read_data_file_outcome parse _ _ _ _ Hdn).
  destruct (select_columns_matched need (data_headers dn)) as [-> ->].
  repeat split.
  - apply select_columns_headers.
  - intros Hm. destruct (read_data_file_warnings parse lines (Some need) self dn Hdn)
      as [w ->].
    apply elem_of_app. left. by apply select_columns_missing.
  - intros t. apply outcome_of_columns.
Qed.

Lemma filter_all_elem_of (R D : list string) :
  (∀ x, x ∈ R → x ∈ D) → filter (fun col => col ∈ D) R = R.
Proof.
  induction R as [|x R IH]; intros H; [done|].
  rewrite filter_cons_True by (apply H, list_elem_of_here).
  f_equal. apply IH. intros y Hy. by apply H, list_elem_of_further.
Qed.

(** C1, as the code has it: when at least one requested name is in the
    declared order, the columns of the table are the requested names that
    are in the declared order, in the order of the request (a name requested
    twice is kept twice); when the request is a permutation of the declared
    order, the columns are the request as given. *)
Theorem selection_keeps_request_order {F : Type} (parse : string → option F)
        (lines R : list string) (self : Processor) (dn : DataName) (t : Table F) :
  find_dataname lines = Some dn →
  (read_data_file parse (Some lines) (Some R) self).2 = Parsed t →
  filter (fun col => col ∈ data_headers dn) R ≠ [] →
  columns t = filter (fun col => col ∈ data_headers dn) R
  ∧ (R ≡ₚ data_headers dn → columns t = R).
Proof.
  intros Hdn Ht Hne.
  rewrite (read_data_file_outcome parse _ _ _ _ Hdn) in Ht.
  apply outcome_of_columns in Ht.
  rewrite select_columns_headers, valid_columns_filter in Ht.
  rewrite decide_False in Ht by done.
  split; [done|]. intros HP. rewrite Ht. apply filter_all_elem_of.
  intros x Hx. by rewrite <- HP.
Qed.

(** C1 fails as stated: asked for Pressure then Temp of a file that declares
    Temp then Pressure, the parse returns Pressure then Temp. *)
Lemma selection_in_request_order_example :
  ∃ t, (read_data_file parse_decimal (Some two_column_file)
                       (Some ["Pressure"; "Temp"]) cleared).2 = Parsed t
       ∧ columns t = ["Pressure"; "Temp"]
       ∧ matched_in_declared_order ["Temp"; "Pressure"] ["Pressure"; "Temp"]
         = ["Temp"; "Pressure"]
       ∧ columns t ≠ matched_in_declared_order ["Temp"; "Pressure"] ["Pressure"; "Temp"].
Proof.
  eexists. split; [vm_compute; reflexivity|].
  split; [reflexivity|]. split; [vm_compute; reflexivity|].
  vm_compute. discriminate.
Qed.

(** ** The type conversion *)

Lemma convert_types_unique_label {F : Type} (parse : string → option F)
      (hs : list string) (rows : list (list string)) (p : nat) (col : string) :
  hs !! p = Some col →
  length (List.filter (String.eqb col) hs) = 1 →
  convert_types parse hs (make_frame rows hs) !! p
  = Some (col, NumCol (map (fun row => parse (default EmptyString (row !! p))) rows)).
Proof.
  intros Hp Hone. unfold convert_types, make_frame.
  rewrite list_lookup_fmap, list_lookup_imap, Hp. cbn [fmap option_fmap option_map].
  unfold convert_column. cbn [fst snd]. rewrite Hone. cbn [Nat.eqb].
  unfold to_numeric_coerce. by rewrite map_map.
Qed.

(** C2, what the code does where the claim fails: a column whose only value
    is the text abc, which is no number, does not stay text; it becomes a
    numeric column holding the missing value. *)
Theorem text_column_coerced_to_missing {F : Type} (parse : string → option F) :
  parse "abc" = None →
  (read_data_file parse (Some text_column_file) None cleared).2
  = Parsed {| df := [("Label", NumCol [None])]; columns := ["Label"]; skipped := 0 |}.
Proof.
  intros Habc. vm_compute. vm_compute in Habc. by rewrite Habc.
Qed.

Lemma text_column_coerced_to_missing_witness :
  parse_decimal "abc" = None
  ∧ (read_data_file parse_decimal (Some text_column_file) None cleared).2
    = Parsed {| df := [("Label", NumCol [None])]; columns := ["Label"]; skipped := 0 |}.
Proof.
  split; [reflexivity|].
  apply (text_column_coerced_to_missing parse_decimal). reflexivity.
Defined.

(** ** Witnesses on concrete files *)

Lemma missing_dataname_fails_witness :
  read_data_file parse_decimal (Some no_dataname_file) None cleared
  = (cleared, [], Failed MissingColumnDeclaration).
Proof.
  apply (missing_dataname_fails parse_decimal no_dataname_file None cleared).
  repeat constructor.
Defined.

Lemma no_data_rows_fails_witness :
  ∃ w, read_data_file parse_decimal (Some no_rows_file) None cleared
       = ({| column_units := reconcile ["Temp"; "Pressure"] (discover_units no_rows_file);
             column_order_from_dataname := ["Temp"; "Pressure"] |},
          w, Failed EmptyResult).
Proof.
  apply (no_data_rows_fails parse_decimal no_rows_file None cleared
           {| data_start_line := 0; delimiter := ","%char;
              data_headers := ["Temp"; "Pressure"] |}).
  - reflexivity.
  - repeat constructor.
Defined.

Lemma selection_keeps_request_order_witness :
  columns pressure_temp_table
  = filter (fun col => col ∈ data_headers two_columns) ["Pressure"; "Temp"]
  ∧ (["Pressure"; "Temp"] ≡ₚ data_headers two_columns →
     columns pressure_temp_table = ["Pressure"; "Temp"]).
Proof.
  apply (selection_keeps_request_order parse_decimal two_column_file
           ["Pressure"; "Temp"] cleared two_columns pressure_temp_table).
  - reflexivity.
  - reflexivity.
  - vm_compute. discriminate.
Defined.

Lemma requested_columns_selection_witness :
  let D := data_headers two_columns in
  let r := read_data_file parse_decimal (Some two_column_file)
                          (Some ["Pressure"; "Humidity"]) cleared in
  headers (select_columns (Some ["Pressure"; "Humidity"]) D) = ["Pressure"]
  ∧ MissingColumns ["Humidity"] D ∈ r.1.2.
Proof.
  intros D r.
  destruct (requested_columns_selection parse_decimal two_column_file
              ["Pressure"; "Humidity"] cleared two_columns eq_refl)
    as (Hh & Hm & _).
  split; [exact Hh|]. apply Hm. vm_compute. discriminate.
Defined.

(** ** The lookahead for the unit line *)

Lemma first_unit_line_seq_None lines a n :
  first_unit_line lines (seq a n) = None
  ↔ ∀ j, a ≤ j < a + n → is_datum_unit_line (Py.strip (line_at lines j)) = false.
Proof.
  revert a. induction n as [|n IH]; intros a; cbn [seq first_unit_line].
  - split; [intros _ j Hj; lia | done].
  - destruct (is_datum_unit_line (Py.strip (line_at lines a))) eqn:Ha.
    + split; [done|]. intros H. rewrite H in Ha by lia. done.
    + rewrite IH. split.
      * intros H j Hj. destruct (decide (j = a)) as [->|]; [done|]. apply H. lia.
      * intros H j Hj. apply H. lia.
Qed.

Lemma first_unit_line_seq_Some lines a n j0 unit_line :
  first_unit_line lines (seq a n) = Some (j0, unit_line)
  ↔ a ≤ j0 < a + n
    ∧ unit_line = Py.strip (line_at lines j0)
    ∧ is_datum_unit_line unit_line = true
    ∧ ∀ k, a ≤ k < j0 → is_datum_unit_line (Py.strip (line_at lines k)) = false.
Proof.
  revert a. induction n as [|n IH]; intros a; cbn [seq first_unit_line].
  - split; [done | intros [? _]; lia].
  - destruct (is_datum_unit_line (Py.strip (line_at lines a))) eqn:Ha.
    + split.
      * intros [= <- <-]. split_and!; [lia | lia | done | done | intros k Hk; lia].
      * intros (Hj & -> & Hu & Hbefore).
        destruct (decide (j0 = a)) as [->|Hne]; [done|].
        rewrite Hbefore in Ha by lia. done.
    + rewrite IH. split.
      * intros (Hj & -> & Hu & Hbefore). split_and!; [lia | lia | done | done |].
        intros k Hk. destruct (decide (k = a)) as [->|]; [done|]. apply Hbefore. lia.
      * intros (Hj & -> & Hu & Hbefore).
        assert (j0 ≠ a) by (intros ->; congruence).
        split_and!; [lia | lia | done | done |]. intros k Hk. apply Hbefore. lia.
Qed.

Lemma lookahead_range (lines : list string) (i j : nat) :
  i + 1 ≤ j < i + 1 + (Nat.min (i + 10) (length lines) - (i + 1))
  ↔ i < j ≤ i + 9 ∧ j < length lines.
Proof. lia. Qed.

Lemma discover_units_found lines i line :
  find_line is_datum_name_line lines = Some (i, line) →
  discover_units lines
  = match find_unit_line lines i with
    | Some (j, unit_line) =>
        dict_update ∅ (datum_pairs (_detect_delimiter line) line unit_line)
    | None => ∅
    end.
Proof.
  intros H. unfold discover_units. rewrite H.
  destruct (2 <? length (Py.split (_detect_delimiter line) line)) eqn:Hparts; [done|].
  destruct (find_unit_line lines i) as [[j unit_line]|]; [|done].
  unfold datum_pairs. by rewrite Hparts.
Qed.

(** C5, as the code has it: the scan after the names line at index [i]
    looks at the lines [i+1] to [i+9], nine lines and not ten. The first
    unit line among them is found and the mapping is built from it and the
    names line, both split on the delimiter of the names line; when none of
    the nine is a unit line the mapping is empty. Either way the phase
    returns a mapping and no error. *)
Theorem unit_line_lookahead (lines : list string) (i : nat) (line : string) :
  find_line is_datum_name_line lines = Some (i, line) →
  (unit_line_within 9 lines i →
   ∃ j0, i < j0 ≤ i + 9
         ∧ is_datum_unit_line (Py.strip (line_at lines j0)) = true
         ∧ (∀ k, i < k < j0 → is_datum_unit_line (Py.strip (line_at lines k)) = false)
         ∧ find_unit_line lines i = Some (j0, Py.strip (line_at lines j0))
         ∧ discover_units lines
           = dict_update ∅ (datum_pairs (_detect_delimiter line) line
                                        (Py.strip (line_at lines j0))))
  ∧ (¬ unit_line_within 9 lines i →
     find_unit_line lines i = None ∧ discover_units lines = ∅).
Proof.
  intros Hname. rewrite (discover_units_found _ _ _ Hname).
  unfold find_unit_line, lookahead, Py.range. split.
  - intros (j & Hj & Hlen & Hunit).
    destruct (first_unit_line lines _) as [[j0 unit_line]|] eqn:Hfirst.
    + apply first_unit_line_seq_Some in Hfirst as (Hj0 & -> & Hu & Hbefore).
      apply lookahead_range in Hj0. exists j0.
      split_and!; [lia | lia | done | | done | done].
      intros k Hk. apply Hbefore. lia.
    + rewrite first_unit_line_seq_None in Hfirst.
      rewrite Hfirst in Hunit by (apply lookahead_range; lia). done.
  - intros Hnone.
    destruct (first_unit_line lines _) as [[j0 unit_line]|] eqn:Hfirst; [|done].
    apply first_unit_line_seq_Some in Hfirst as (Hj0 & -> & Hu & _).
    apply lookahead_range in Hj0. destruct Hnone. exists j0. split_and!; [lia | lia | lia | done].
Qed.

Lemma unit_line_lookahead_witness :
  unit_line_within 9 near_unit_file 0
  ∧ ∃ j0, 0 < j0 ≤ 0 + 9
          ∧ is_datum_unit_line (Py.strip (line_at near_unit_file j0)) = true
          ∧ (∀ k, 0 < k < j0 →
                  is_datum_unit_line (Py.strip (line_at near_unit_file k)) = false)
          ∧ find_unit_line near_unit_file 0
            = Some (j0, Py.strip (line_at near_unit_file j0))
          ∧ discover_units near_unit_file
            = dict_update ∅ (datum_pairs ","%char "AnalysisSetup,Datum.Name,Temp,Pressure"
                                         (Py.strip (line_at near_unit_file j0))).
Proof.
  assert (Hw : unit_line_within 9 near_unit_file 0).
  { exists 2. split; [lia|]. split; [vm_compute; lia | reflexivity]. }
  split; [exact Hw|].
  exact (proj1 (unit_line_lookahead near_unit_file 0
                  "AnalysisSetup,Datum.Name,Temp,Pressure" eq_refl) Hw).
Defined.

(** C5 fails as stated: a unit line ten lines after the names line is within
    ten lines of it and is not found; the mapping stays empty. *)
Lemma unit_line_ten_lines_after_is_missed :
  find_line is_datum_name_line late_unit_file
  = Some (0, "AnalysisSetup,Datum.Name,Temp,Pressure")
  ∧ unit_line_within 10 late_unit_file 0
  ∧ find_unit_line late_unit_file 0 = None
  ∧ discover_units late_unit_file = ∅.
Proof.
  split; [reflexivity|]. split.
  - exists 10. split; [lia|]. split; [vm_compute; lia | reflexivity].
  - split; reflexivity.
Qed.

(** ** Pairing of names and units *)

Lemma is_empty_true (s : string) : Py.is_empty s = true ↔ s = EmptyString.
Proof. by destruct s. Qed.

Lemma stripped_nonempty_app (l1 l2 : list string) :
  stripped_nonempty (l1 ++ l2) = stripped_nonempty l1 ++ stripped_nonempty l2.
Proof. unfold stripped_nonempty. by rewrite map_app, List.filter_app. Qed.

Lemma stripped_nonempty_cons (x : string) (l : list string) :
  stripped_nonempty (x :: l)
  = if Py.is_empty (Py.strip x) then stripped_nonempty l
    else Py.strip x :: stripped_nonempty l.
Proof.
  unfold stripped_nonempty. cbn [map List.filter].
  by destruct (Py.is_empty (Py.strip x)).
Qed.

Lemma stripped_nonempty_length (l : list string) :
  length (stripped_nonempty l) ≤ length l.
Proof.
  induction l as [|x l IH]; [done|]. rewrite stripped_nonempty_cons.
  destruct (Py.is_empty (Py.strip x)); cbn [length]; lia.
Qed.

Lemma stripped_nonempty_length_lt (l : list string) (j : nat) (v : string) :
  l !! j = Some v → Py.strip v = EmptyString →
  length (stripped_nonempty l) < length l.
Proof.
  revert j. induction l as [|x l IH]; intros j Hj Hv; [done|].
  rewrite stripped_nonempty_cons. destruct j as [|j]; cbn in Hj.
  - injection Hj as ->. rewrite Hv. cbn [Py.is_empty length].
    pose proof (stripped_nonempty_length l). lia.
  - specialize (IH j Hj Hv).
    destruct (Py.is_empty (Py.strip x)); cbn [length]; lia.
Qed.

(** Where the first [p + 1] fields are all non-empty, field [p] keeps its
    position through the filter. *)
Lemma stripped_nonempty_lookup (l : list string) (p : nat) :
  (∀ i n, i ≤ p → l !! i = Some n → Py.strip n ≠ EmptyString) →
  stripped_nonempty l !! p = Py.strip <$> l !! p.
Proof.
  revert p. induction l as [|x l IH]; intros p Hfull; [done|].
  rewrite stripped_nonempty_cons.
  destruct (Py.is_empty (Py.strip x)) eqn:Hx.
  - apply is_empty_true in Hx. by destruct (Hfull 0 x (Nat.le_0_l p) eq_refl).
  - destruct p as [|p]; [done|]. cbn [lookup list_lookup]. apply IH.
    intros i n Hi Hn. apply (Hfull (S i) n); [lia | done].
Qed.

Lemma datum_pairs_zip (d : ascii) (line unit_line : string) :
  datum_pairs d line unit_line
  = zip (stripped_nonempty (raw_fields d line))
        (stripped_nonempty (raw_fields d unit_line)).
Proof.
  unfold datum_pairs, raw_fields.
  destruct (Nat.ltb_spec 2 (length (Py.split d line))) as [|Hn]; cbn [andb].
  - destruct (Nat.ltb_spec 2 (length (Py.split d unit_line))) as [|Hu]; [done|].
    rewrite (drop_ge (Py.split d unit_line)) by lia.
    symmetry. apply zip_with_nil_r.
  - by rewrite (drop_ge (Py.split d line)) by lia.
Qed.

(** C10, as the code has it: the names and the units are each stripped and
    rid of their empty fields before they are zipped. A non-empty unit at
    raw position [k] therefore lands at position [p], the number of
    non-empty units before it; where the names line has no empty field up
    to position [p], the unit is paired with the name at raw position [p],
    and [p] is smaller than [k] as soon as one unit field before [k] is
    empty. *)
Theorem empty_unit_shifts_units_left (d : ascii) (line unit_line : string)
        (k : nat) (u : string) :
  let N := raw_fields d line in
  let U := raw_fields d unit_line in
  let p := length (stripped_nonempty (take k U)) in
  U !! k = Some u →
  Py.strip u ≠ EmptyString →
  p < length N →
  (∀ i n, i ≤ p → N !! i = Some n → Py.strip n ≠ EmptyString) →
  datum_pairs d line unit_line = zip (stripped_nonempty N) (stripped_nonempty U)
  ∧ p ≤ k
  ∧ (empty_field_before U k → p < k)
  ∧ ∃ n, N !! p = Some n
         ∧ datum_pairs d line unit_line !! p = Some (Py.strip n, Py.strip u).
Proof.
  intros N U p Hk Hu Hp Hfull.
  assert (Hkl : k < length U) by (by apply lookup_lt_Some in Hk).
  assert (Hpk : p ≤ k).
  { subst p. pose proof (stripped_nonempty_length (take k U)) as Hle.
    rewrite length_take in Hle. lia. }
  split_and!; [apply datum_pairs_zip | done | |].
  - intros (j & v & Hj & Hv & Hempty). subst p.
    assert (Htake : take k U !! j = Some v) by (by rewrite lookup_take_lt).
    pose proof (stripped_nonempty_length_lt _ _ _ Htake Hempty) as Hlt.
    rewrite length_take in Hlt. lia.
  - destruct (lookup_lt_is_Some_2 N p Hp) as [n Hn]. exists n. split; [done|].
    rewrite datum_pairs_zip. apply lookup_zip_with_Some. exists (Py.strip n), (Py.strip u).
    split_and!; [done | |].
    + fold N. by rewrite (stripped_nonempty_lookup N p Hfull), Hn.
    + fold U. rewrite <- (take_drop_middle U k u Hk), stripped_nonempty_app.
      rewrite stripped_nonempty_cons.
      destruct (Py.is_empty (Py.strip u)) eqn:He; [by apply is_empty_true in He|].
      fold p. by rewrite list_lookup_middle.
Qed.

Lemma empty_unit_shifts_units_left_witness :
  raw_fields ","%char units_with_gap = ["a"; ""; "c"]
  ∧ datum_pairs ","%char names_without_gap units_with_gap = [("A", "a"); ("B", "c")]
  ∧ (empty_field_before (raw_fields ","%char units_with_gap) 2 → 1 < 2)
  ∧ ∃ n, raw_fields ","%char names_without_gap !! 1 = Some n
         ∧ datum_pairs ","%char names_without_gap units_with_gap !! 1
           = Some (Py.strip n, Py.strip "c").
Proof.
  split; [reflexivity|]. split; [reflexivity|].
  refine (proj2 (proj2 (empty_unit_shifts_units_left
                          ","%char names_without_gap units_with_gap 2 "c"
                          eq_refl _ _ _))).
  - discriminate.
  - vm_compute. lia.
  - intros [|[|i]] n Hi Hn; vm_compute in Hn; [| |vm_compute in Hi; lia];
      injection Hn as <-; discriminate.
Defined.

(** C10 fails as stated: where the names line has an empty field at the same
    place as the units line, the unit after the empty field is paired with
    the name at its own raw position. *)
Lemma aligned_gaps_keep_positions :
  raw_fields ","%char names_with_gap = ["A"; ""; "C"]
  ∧ raw_fields ","%char units_with_gap = ["a"; ""; "c"]
  ∧ empty_field_before (raw_fields ","%char units_with_gap) 2
  ∧ datum_pairs ","%char names_with_gap units_with_gap = [("A", "a"); ("C", "c")]
  ∧ ¬ paired_with_earlier_name ","%char names_with_gap units_with_gap 2.
Proof.
  split; [reflexivity|]. split; [reflexivity|]. split.
  { exists 1, EmptyString. split; [lia|]. split; reflexivity. }
  split; [reflexivity|].
  intros (u & Hu & _ & Hsame). vm_compute in Hu. injection Hu as <-.
  apply (Hsame "C"); [reflexivity|].
  vm_compute. apply list_elem_of_further, list_elem_of_here.
Qed.


(** ** The embedding on the scenarios of the specification *)

Example scenario_table_and_units :
  read_data_file parse_decimal (Some two_column_file) None cleared
  = ({| column_units := {[ "Temp" := "C"; "Pressure" := "kPa" ]};
        column_order_from_dataname := ["Temp"; "Pressure"] |},
     [],
     Parsed {| df := [("Temp", NumCol [Some {| mantissa := 250; exponent := -1 |};
                                       Some {| mantissa := 300; exponent := -1 |}]);
                      ("Pressure", NumCol [Some {| mantissa := 1013; exponent := -1 |};
                                           Some {| mantissa := 998; exponent := -1 |}])];
               columns := ["Temp"; "Pressure"];
               skipped := 0 |}).
Proof. vm_compute. reflexivity. Qed.

Example scenario_without_unit_line :
  (read_data_file parse_decimal
     (Some [ ln "AnalysisSetup,Datum.Name,Temp,Pressure";
             ln "DataName,Temp,Pressure";
             ln "DataValue,25.0,101.3" ]) None cleared).1.1
  = {| column_units := ∅; column_order_from_dataname := ["Temp"; "Pressure"] |}.
Proof. vm_compute. reflexivity. Qed.

Example scenario_short_row_is_padded :
  process_line two_columns [0; 1] 3 (ln "DataValue,25.0")
  = Kept [ShortRow 4 1 2] ["25.0"; ""].
Proof. reflexivity. Qed.

Example scenario_empty_row_is_skipped :
  process_line two_columns [0; 1] 3 (ln "DataValue,,") = Skipped [].
Proof. reflexivity. Qed.

Example scenario_spaced_exponent :
  process_line two_columns [0; 1] 3 (ln "DataValue, 1.5 E-3 ,7")
  = Kept [] ["1.5E-3"; "7"].
Proof. reflexivity. Qed.

Example scenario_semicolon_section :
  find_dataname [ ln "DataName;Temp;Pressure, kPa" ]
  = Some {| data_start_line := 0; delimiter := ";"%char;
            data_headers := ["Temp"; "Pressure, kPa"] |}.
Proof. reflexivity. Qed.

(** * Further properties of the parser *)

(** ** Stripped strings *)

Lemma rstrip_head (c : ascii) (s : string) :
  Py.isspace c = false → Py.rstrip (String c s) = String c (Py.rstrip s).
Proof. intros Hc. cbn [Py.rstrip]. by rewrite Hc. Qed.

Lemma lstrip_head (s : string) :
  match Py.lstrip s with
  | EmptyString => True
  | String c _ => Py.isspace c = false
  end.
Proof.
  induction s as [|c s IH]; [done|]. cbn [Py.lstrip].
  destruct (Py.isspace c) eqn:Hc; [done|]. exact Hc.
Qed.

Lemma lstrip_id (s : string) :
  match s with EmptyString => True | String c _ => Py.isspace c = false end →
  Py.lstrip s = s.
Proof. destruct s as [|c s]; [done|]. cbn [Py.lstrip]. by intros ->. Qed.

Lemma rstrip_idem (s : string) : Py.rstrip (Py.rstrip s) = Py.rstrip s.
Proof.
  induction s as [|c s IH]; [done|]. cbn [Py.rstrip].
  destruct (Py.isspace c && Py.is_empty (Py.rstrip s)) eqn:H; [done|].
  cbn [Py.rstrip]. rewrite IH. by rewrite H.
Qed.

Lemma strip_head (s : string) :
  match Py.strip s with
  | EmptyString => True
  | String c _ => Py.isspace c = false
  end.
Proof.
  unfold Py.strip. pose proof (lstrip_head s) as H.
  destruct (Py.lstrip s) as [|c r]; [done|].
  by rewrite (rstrip_head _ _ H).
Qed.

Lemma strip_idem (s : string) : Py.strip (Py.strip s) = Py.strip s.
Proof.
  unfold Py.strip at 1. rewrite (lstrip_id _ (strip_head s)).
  unfold Py.strip. apply rstrip_idem.
Qed.

Lemma stripped_nonempty_elem (fields : list string) (h : string) :
  h ∈ stripped_nonempty fields ↔
  ∃ f, f ∈ fields ∧ h = Py.strip f ∧ h ≠ EmptyString.
Proof.
  unfold stripped_nonempty. rewrite list_elem_of_In, filter_In, in_map_iff.
  split.
  - intros [(f & <- & Hf) Hne]. exists f. rewrite list_elem_of_In.
    split_and!; [done..|]. intros Heq. by rewrite Heq in Hne.
  - intros (f & Hf & -> & Hne). split.
    + exists f. by rewrite <- list_elem_of_In.
    + by destruct (Py.strip f).
Qed.

Lemma find_dataname_line (lines : list string) (dn : DataName) :
  find_dataname lines = Some dn →
  data_start_line dn < length lines
  ∧ Py.startswith "DataName" (Py.strip (line_at lines (data_start_line dn))) = true
  ∧ data_headers dn
    = stripped_nonempty
        (drop 1 (Py.split (delimiter dn)
                          (Py.strip (line_at lines (data_start_line dn)))))
  ∧ delimiter dn = _detect_delimiter (Py.strip (line_at lines (data_start_line dn))).
Proof.
  unfold find_dataname, find_line.
  destruct (find_line_from _ 0 lines) as [[i line]|] eqn:Hfind; [|done].
  intros [= <-]. cbn [data_headers data_start_line delimiter].
  apply find_line_from_Some in Hfind as (_ & Hlt & -> & Hstart).
  rewrite Nat.sub_0_r in *. done.
Qed.

(** X1: every column name taken from the DataName line is non-empty and
    carries no whitespace at either end, and the line it comes from is a
    line of the file that, once trimmed, begins with DataName. *)
Theorem data_headers_are_clean_names (lines : list string) (dn : DataName) :
  find_dataname lines = Some dn →
  (∀ h, h ∈ data_headers dn → h ≠ EmptyString ∧ Py.strip h = h)
  ∧ data_start_line dn < length lines
  ∧ Py.startswith "DataName" (Py.strip (line_at lines (data_start_line dn))) = true.
Proof.
  intros Hdn. destruct (find_dataname_line _ _ Hdn) as (Hlt & Hstart & Hhs & _).
  split_and!; [|done|done]. rewrite Hhs.
  intros h (f & _ & -> & Hne)%stripped_nonempty_elem.
  split; [done | apply strip_idem].
Qed.

Lemma data_headers_are_clean_names_witness :
  (∀ h, h ∈ ["Temp"; "Pressure"] → h ≠ EmptyString ∧ Py.strip h = h)
  ∧ 2 < length two_column_file
  ∧ Py.startswith "DataName" (Py.strip (line_at two_column_file 2)) = true.
Proof.
  exact (data_headers_are_clean_names two_column_file two_columns eq_refl).
Defined.

(** ** The selection and the rows *)

Lemma index_of_member (x : string) (D : list string) :
  Py.mem x D = true →
  ∃ i, Py.index x D = Some i ∧ D !! i = Some x
       ∧ ∀ j, j < i → D !! j ≠ Some x.
Proof.
  induction D as [|y D IH]; [done|]. unfold Py.mem. cbn [existsb Py.index].
  rewrite (String.eqb_sym y x).
  destruct (String.eqb_spec x y) as [->|Hne]; cbn [orb].
  - intros _. exists 0. split_and!; [done..|]. intros j Hj. lia.
  - intros (i & -> & Hi & Hfirst)%IH. exists (S i). split_and!; [done..|].
    intros [|j] Hj; cbn; [congruence|]. apply Hfirst. lia.
Qed.

Lemma valid_columns_members (need D : list string) (col : string) :
  col ∈ valid_columns need D → Py.mem col D = true.
Proof.
  unfold valid_columns. rewrite list_elem_of_In, filter_In. tauto.
Qed.

Lemma omap_index_lookup (D l : list string) (p : nat) (col : string) :
  (∀ x, x ∈ l → Py.mem x D = true) →
  l !! p = Some col →
  omap (fun c => Py.index c D) l !! p = Py.index col D.
Proof.
  revert p. induction l as [|x l IH]; intros p Hall Hp; [done|].
  cbn [omap list_omap].
  destruct (index_of_member x D (Hall x (list_elem_of_here _ _))) as (i & Hi & _).
  rewrite Hi. destruct p as [|p]; cbn in Hp.
  - injection Hp as ->. by rewrite Hi.
  - cbn. apply IH; [|done]. intros y Hy. by apply Hall, list_elem_of_further.
Qed.

Lemma omap_index_length (D l : list string) :
  (∀ x, x ∈ l → Py.mem x D = true) →
  length (omap (fun c => Py.index c D) l) = length l.
Proof.
  induction l as [|x l IH]; intros Hall; [done|]. cbn [omap list_omap].
  destruct (index_of_member x D (Hall x (list_elem_of_here _ _))) as (i & -> & _).
  cbn [length]. f_equal. apply IH. intros y Hy. by apply Hall, list_elem_of_further.
Qed.

Lemma select_columns_shape (need_columns : option (list string)) (D : list string) :
  let sel := select_columns need_columns D in
  length (col_indices sel) = length (headers sel)
  ∧ ∀ p col, headers sel !! p = Some col →
             ∃ idx, col_indices sel !! p = Some idx
                    ∧ D !! idx = Some col
                    ∧ idx < length D.
Proof.
  assert (Hall : ∀ w,
    length (col_indices (all_columns D w)) = length (headers (all_columns D w))
    ∧ ∀ p col, headers (all_columns D w) !! p = Some col →
               ∃ idx, col_indices (all_columns D w) !! p = Some idx
                      ∧ D !! idx = Some col ∧ idx < length D).
  { intros w. unfold all_columns, Py.range. cbn [col_indices headers].
    rewrite Nat.sub_0_r, length_seq. split; [done|].
    intros p col Hp. exists p. pose proof (lookup_lt_Some _ _ _ Hp).
    split_and!; [|done|done]. by rewrite lookup_seq_lt. }
  cbn zeta. unfold select_columns.
  destruct need_columns as [[|x need]|]; [apply Hall | | apply Hall].
  destruct (valid_columns (x :: need) D) as [|v vs] eqn:Hv; [apply Hall|].
  cbn [col_indices headers]. rewrite <- Hv.
  pose proof (valid_columns_members (x :: need) D) as Hmem.
  split; [by apply omap_index_length|].
  intros p col Hp.
  destruct (index_of_member col D) as (i & Hi & HD & _).
  { apply Hmem. by eapply list_elem_of_lookup_2. }
  exists i. split_and!; [|done|by eapply lookup_lt_Some].
  by rewrite (omap_index_lookup D _ p col Hmem Hp).
Qed.

(** X2: whatever is requested, there is one source index per selected
    column, and the index of a selected column points, in the declared
    order, at a column of that name. So no index is out of the declared range. *)
Theorem selection_indices_name_their_columns
        (need_columns : option (list string)) (D : list string) :
  let sel := select_columns need_columns D in
  length (col_indices sel) = length (headers sel)
  ∧ ∀ p col, headers sel !! p = Some col →
             ∃ idx, col_indices sel !! p = Some idx
                    ∧ D !! idx = Some col
                    ∧ idx < length D.
Proof. apply select_columns_shape. Qed.

Lemma project_length (idx : list nat) (vs : list string) :
  length (project idx vs) = length idx.
Proof. unfold project. apply length_map. Qed.

Lemma process_line_kept dn idx i raw w row :
  process_line dn idx i raw = Kept w row →
  length row = length idx ∧ has_data row = true.
Proof.
  unfold process_line. cbn zeta.
  destruct (Py.is_empty _); [done|].
  destruct (Py.startswith_any _ _); [done|].
  destruct (negb _); [done|].
  destruct (length _ <? 2); [done|].
  destruct (has_data _) eqn:Hdata; [|done].
  intros [= _ <-]. by rewrite project_length.
Qed.

Lemma collect_rows_shape dn idx i rest :
  Forall (fun row => length row = length idx ∧ has_data row = true)
         (data_rows (collect_rows dn idx i rest))
  ∧ length (data_rows (collect_rows dn idx i rest))
    + skipped_rows (collect_rows dn idx i rest) = length rest.
Proof.
  revert i. induction rest as [|raw rest IH]; intros i; [by split; [constructor|]|].
  cbn [collect_rows]. destruct (IH (S i)) as [Hrows Hcount].
  destruct (process_line dn idx i raw) as [w|w row] eqn:Hline;
    cbn [data_rows skipped_rows length].
  - split; [done | lia].
  - split; [|lia]. constructor; [|done]. by eapply process_line_kept.
Qed.

(** X3: every row collected from the DataValue lines has exactly one value
    per selected column and at least one value that is not empty; so the
    frame can always be built from the rows and the selected headers. *)
Theorem collected_rows_fit_the_headers
        (need_columns : option (list string)) (dn : DataName)
        (i : nat) (rest : list string) (row : list string) :
  let sel := select_columns need_columns (data_headers dn) in
  row ∈ data_rows (collect_rows dn (col_indices sel) i rest) →
  length row = length (headers sel)
  ∧ ∃ val, val ∈ row ∧ Py.strip val ≠ EmptyString.
Proof.
  intros sel Hrow.
  destruct (collect_rows_shape dn (col_indices sel) i rest) as [Hall _].
  rewrite Forall_forall in Hall. destruct (Hall row Hrow) as [Hlen Hdata].
  split.
  - rewrite Hlen. apply (select_columns_shape need_columns).
  - unfold has_data in Hdata. apply existsb_exists in Hdata as (val & Hin & Hval).
    exists val. split; [by apply list_elem_of_In|].
    intros Heq. by rewrite Heq in Hval.
Qed.

Lemma collected_rows_fit_the_headers_witness :
  length ["101.3"; "25.0"] = length ["Pressure"; "Temp"]
  ∧ ∃ val, val ∈ ["101.3"; "25.0"] ∧ Py.strip val ≠ EmptyString.
Proof.
  apply (collected_rows_fit_the_headers (Some ["Pressure"; "Temp"]) two_columns 3
           (drop 3 two_column_file) ["101.3"; "25.0"]).
  vm_compute. apply list_elem_of_here.
Defined.

(** ** The shape of the table *)

Lemma imap_labels {B : Type} (g : nat → string → B) (hs : list string) :
  map fst (imap (fun p col => (col, g p col)) hs) = hs.
Proof.
  revert g. induction hs as [|h hs IH]; intros g; [done|].
  cbn [imap map fst]. f_equal. exact (IH (fun p => g (S p))).
Qed.

Lemma make_frame_labels (rows : list (list string)) (hs : list string) :
  map fst (make_frame rows hs) = hs.
Proof. unfold make_frame. apply imap_labels. Qed.

Lemma convert_types_labels {F : Type} (parse : string → option F)
      (rows : list (list string)) (hs : list string) :
  map fst (convert_types parse hs (make_frame rows hs)) = hs.
Proof.
  unfold convert_types. rewrite map_map.
  rewrite <- (make_frame_labels rows hs) at 2.
  apply map_ext. intros c. unfold convert_column. by destruct (_ =? 1).
Qed.

Lemma convert_types_cells {F : Type} (parse : string → option F)
      (rows : list (list string)) (hs : list string) (c : string * Column F) :
  c ∈ convert_types parse hs (make_frame rows hs) → cells c.2 = length rows.
Proof.
  unfold convert_types, make_frame.
  intros (c0 & -> & Hc0)%list_elem_of_fmap.
  apply list_elem_of_lookup in Hc0 as [p Hp].
  rewrite list_lookup_imap in Hp.
  destruct (hs !! p) as [col|]; [|done]. injection Hp as <-.
  unfold convert_column, to_numeric_coerce. cbn [fst snd].
  destruct (_ =? 1); cbn [snd cells]; by rewrite !length_map.
Qed.

(** X4: in a parsed table the labels of the frame are the selected headers,
    there is at least one column, every column has the same number of
    cells, at least one, and that number plus the count of skipped lines is
    the number of lines after the DataName line. *)
Theorem parsed_table_accounts_for_lines {F : Type} (parse : string → option F)
        (lines : list string) (need : option (list string)) (self self' : Processor)
        (w : list Warning) (t : Table F) (dn : DataName) :
  find_dataname lines = Some dn →
  read_data_file parse (Some lines) need self = (self', w, Parsed t) →
  map fst (df t) = columns t
  ∧ columns t ≠ []
  ∧ ∀ c, c ∈ df t →
         0 < cells c.2
         ∧ cells c.2 + skipped t + (data_start_line dn + 1) = length lines.
Proof.
  intros Hdn Hread.
  pose proof (find_dataname_line _ _ Hdn) as (Hstart & _).
  rewrite (read_data_file_found parse _ _ _ _ Hdn) in Hread. cbn zeta in Hread.
  set (sel := select_columns need (data_headers dn)) in *.
  set (rest := drop (data_start_line dn + 1) lines) in *.
  destruct (collect_rows_shape dn (col_indices sel) (data_start_line dn + 1) rest)
    as [Hrows Hcount].
  assert (Hrest : length rest + (data_start_line dn + 1) = length lines).
  { subst rest. rewrite length_drop. lia. }
  destruct (data_rows _) as [|row rows] eqn:Hdata; [done|].
  injection Hread as _ _ <-. cbn [df columns skipped].
  split_and!.
  - apply convert_types_labels.
  - apply Forall_cons in Hrows as [[Hlen Hhas] _].
    destruct (select_columns_shape need (data_headers dn)) as [Hidx _].
    fold sel in Hidx. intros Hnil. rewrite Hnil in Hidx.
    destruct row; [done|]. cbn in Hlen, Hidx. lia.
  - intros c Hc. rewrite (convert_types_cells _ _ _ _ Hc).
    cbn [length] in *. lia.
Qed.

Lemma parsed_table_accounts_for_lines_witness :
  map fst (df pressure_temp_table) = columns pressure_temp_table
  ∧ columns pressure_temp_table ≠ []
  ∧ ∀ c, c ∈ df pressure_temp_table →
         0 < cells c.2
         ∧ cells c.2 + skipped pressure_temp_table + (2 + 1) = length two_column_file.
Proof.
  exact (parsed_table_accounts_for_lines parse_decimal two_column_file
           (Some ["Pressure"; "Temp"]) cleared _ _ pressure_temp_table two_columns
           eq_refl eq_refl).
Defined.

(** X5: a selected index always falls inside the padded row, whatever the
    line holds: the projection never takes its branch for an index past the
    end of the row, and copies the cleaned value found at the index. *)
Theorem projection_stays_in_the_row
        (need_columns : option (list string)) (D parts : list string) :
  let sel := select_columns need_columns D in
  Forall (fun idx => idx < length (padded_values D parts)) (col_indices sel)
  ∧ project (col_indices sel) (padded_values D parts)
    = omap (fun idx => padded_values D parts !! idx) (col_indices sel).
Proof.
  intros sel.
  assert (Hin : Forall (fun idx => idx < length (padded_values D parts))
                       (col_indices sel)).
  { apply Forall_lookup. intros p idx Hp.
    destruct (select_columns_shape need_columns D) as [Hlen Hnames].
    fold sel in Hlen, Hnames.
    destruct (lookup_lt_is_Some_2 (headers sel) p) as [col Hcol].
    { rewrite <- Hlen. by eapply lookup_lt_Some. }
    destruct (Hnames p col Hcol) as (idx' & Hidx' & _ & Hlt).
    rewrite Hp in Hidx'. injection Hidx' as <-.
    unfold padded_values. rewrite pad_values_length. lia. }
  split; [done|].
  unfold project. induction Hin as [|idx idxs Hidx _ IH]; [done|].
  cbn [map omap list_omap]. rewrite IH.
  apply Nat.ltb_lt in Hidx as Hb. rewrite Hb.
  destruct (lookup_lt_is_Some_2 _ _ Hidx) as [v ->]. done.
Qed.

(** ** Cleaned values *)

Lemma remove_spaces_no_space (s : string) :
  Py.has_char " "%char (Py.remove_spaces s) = false.
Proof.
  induction s as [|c s IH]; [done|]. cbn [Py.remove_spaces].
  destruct (Ascii.eqb c " ") eqn:Hc; [done|]. cbn [Py.has_char]. by rewrite Hc.
Qed.

Lemma space_isspace (c : ascii) : Ascii.eqb c " "%char = true → Py.isspace c = true.
Proof. by intros ->%Ascii.eqb_eq. Qed.

Lemma rstrip_fixed_nonempty (s : string) :
  Py.rstrip s = s → s ≠ EmptyString → Py.remove_spaces s ≠ EmptyString.
Proof.
  induction s as [|c s IH]; [done|]. cbn [Py.rstrip Py.remove_spaces].
  destruct (Py.isspace c && Py.is_empty (Py.rstrip s)) eqn:Hc; [done|].
  intros [= Hs] _. rewrite Hs in Hc.
  destruct (Ascii.eqb c " ") eqn:Hsp; [|done].
  rewrite (space_isspace _ Hsp) in Hc. cbn [andb] in Hc.
  apply IH; [done|]. by destruct s.
Qed.

Lemma rstrip_fixed_remove_spaces (s : string) :
  Py.rstrip s = s → Py.rstrip (Py.remove_spaces s) = Py.remove_spaces s.
Proof.
  induction s as [|c s IH]; [done|]. cbn [Py.rstrip Py.remove_spaces].
  destruct (Py.isspace c && Py.is_empty (Py.rstrip s)) eqn:Hc; [done|].
  intros [= Hs]. rewrite Hs in Hc. specialize (IH Hs).
  destruct (Ascii.eqb c " ") eqn:Hsp; [done|].
  cbn [Py.rstrip]. rewrite IH.
  destruct (Py.isspace c) eqn:Hws; cbn [andb] in *; [|done].
  destruct s as [|c' s']; [done|].
  pose proof (rstrip_fixed_nonempty (String c' s') Hs) as Hne.
  destruct (Py.remove_spaces (String c' s')); [by destruct Hne|done].
Qed.

Lemma strip_fixed_remove_spaces (s : string) :
  Py.strip s = s → Py.strip (Py.remove_spaces s) = Py.remove_spaces s.
Proof.
  intros Hs. pose proof (strip_head s) as Hhead. rewrite Hs in Hhead.
  assert (Hr : Py.rstrip s = s).
  { rewrite <- Hs at 1. unfold Py.strip. by rewrite rstrip_idem. }
  unfold Py.strip. rewrite lstrip_id; [by apply rstrip_fixed_remove_spaces|].
  destruct s as [|c s']; [done|]. cbn [Py.remove_spaces].
  destruct (Ascii.eqb c " ") eqn:Hsp.
  - by rewrite (space_isspace _ Hsp) in Hhead.
  - done.
Qed.

(** X6: a cleaned value carries no whitespace at either end, and a cleaned
    value that holds an E or an e holds no space. *)
Theorem clean_value_is_trimmed (val : string) :
  Py.strip (clean_value val) = clean_value val
  ∧ (Py.has_char "E"%char (clean_value val) || Py.has_char "e"%char (clean_value val)
     = true → Py.has_char " "%char (clean_value val) = false).
Proof.
  unfold clean_value. cbn zeta.
  destruct (Py.has_char " " (Py.strip val)
            && (Py.has_char "E" (Py.strip val) || Py.has_char "e" (Py.strip val)))
    eqn:Hcond.
  - split; [apply strip_fixed_remove_spaces, strip_idem|].
    intros _. apply remove_spaces_no_space.
  - split; [apply strip_idem|]. intros He. rewrite He, andb_true_r in Hcond. done.
Qed.

(** ** Requesting every declared column *)

Lemma valid_columns_all (l D : list string) :
  (∀ x, x ∈ l → x ∈ D) → valid_columns l D = l ∧ missing_columns l D = [].
Proof.
  unfold valid_columns, missing_columns.
  induction l as [|x l IH]; intros H; [done|]. cbn [List.filter].
  rewrite mem_elem_of, bool_decide_eq_true_2 by apply H, list_elem_of_here.
  cbn [negb]. destruct IH as [-> ->]; [|done].
  intros y Hy. by apply H, list_elem_of_further.
Qed.

Lemma omap_index_nodup (D : list string) :
  NoDup D → omap (fun c => Py.index c D) D = seq 0 (length D).
Proof.
  intros Hnd.
  assert (Hmem : ∀ x, x ∈ D → Py.mem x D = true).
  { intros x Hx. by rewrite mem_elem_of, bool_decide_eq_true_2. }
  apply list_eq. intros p.
  destruct (D !! p) as [col|] eqn:Hp.
  - rewrite (omap_index_lookup D D p col Hmem Hp).
    destruct (index_of_member col D) as (i & -> & Hi & _).
    { apply Hmem. by eapply list_elem_of_lookup_2. }
    rewrite (NoDup_lookup D i p col Hnd Hi Hp).
    rewrite lookup_seq_lt; [done | by eapply lookup_lt_Some].
  - apply lookup_ge_None in Hp.
    rewrite !(proj2 (lookup_ge_None _ _)); [done | by rewrite length_seq |].
    by rewrite omap_index_length.
Qed.

Lemma select_columns_all_nodup (D : list string) :
  NoDup D → select_columns (Some D) D = select_columns None D.
Proof.
  intros Hnd. destruct D as [|h hs]; [done|].
  destruct (valid_columns_all (h :: hs) (h :: hs)) as [Hv Hm]; [done|].
  unfold select_columns. rewrite Hm, Hv, (omap_index_nodup _ Hnd).
  unfold all_columns, Py.range. by rewrite Nat.sub_0_r.
Qed.

(** X7: when no name is declared twice, asking for all the declared columns
    in the declared order is the same as asking for nothing: the same
    state, warnings and outcome. *)
Theorem requesting_all_is_requesting_none {F : Type} (parse : string → option F)
        (lines : list string) (self : Processor) (dn : DataName) :
  find_dataname lines = Some dn →
  NoDup (data_headers dn) →
  read_data_file parse (Some lines) (Some (data_headers dn)) self
  = read_data_file parse (Some lines) None self.
Proof.
  intros Hdn Hnd. rewrite !(read_data_file_found parse _ _ _ _ Hdn).
  pose proof (select_columns_all_nodup _ Hnd) as Hsel.
  by rewrite Hsel.
Qed.

Lemma requesting_all_is_requesting_none_witness :
  read_data_file parse_decimal (Some two_column_file) (Some ["Temp"; "Pressure"]) cleared
  = read_data_file parse_decimal (Some two_column_file) None cleared.
Proof.
  apply (requesting_all_is_requesting_none parse_decimal two_column_file cleared
           two_columns eq_refl).
  apply (bool_decide_unpack (NoDup (data_headers two_columns))). exact I.
Defined.

(** ** When the parse succeeds *)

Lemma collect_rows_some dn idx i rest :
  data_rows (collect_rows dn idx i rest) ≠ [] →
  Exists (fun raw => unusable dn idx raw = false) rest.
Proof.
  revert i. induction rest as [|raw rest IH]; intros i; [done|].
  cbn [collect_rows].
  destruct (unusable dn idx raw) eqn:Hu.
  - apply (process_line_unusable _ _ i) in Hu as [w ->]. cbn [data_rows].
    intros H. apply Exists_cons_tl. by eapply IH.
  - intros _. by apply Exists_cons_hd.
Qed.

Lemma collect_rows_empty dn idx i rest :
  data_rows (collect_rows dn idx i rest) = [] →
  Forall (fun raw => unusable dn idx raw = true) rest.
Proof.
  revert i. induction rest as [|raw rest IH]; intros i; [constructor|].
  cbn [collect_rows].
  destruct (process_line dn idx i raw) as [w|w row] eqn:Hline; cbn [data_rows]; [|done].
  intros H. constructor; [|by eapply IH].
  apply (process_line_unusable _ _ i). eauto.
Qed.

(** X8: the outcome of parsing a file that could be read tells what the
    file holds. It is MissingColumnDeclaration only when no trimmed line
    begins with DataName, EmptyResult only when every line after the
    DataName line is unusable, and a table only when some line after the
    DataName line is usable; it is never FileUnreadable. *)
Theorem parse_outcome_reflects_the_file {F : Type} (parse : string → option F)
        (lines : list string) (need : option (list string)) (self : Processor) :
  match (read_data_file parse (Some lines) need self).2 with
  | Failed FileUnreadable => False
  | Failed MissingColumnDeclaration =>
      Forall (fun raw => Py.startswith "DataName" (Py.strip raw) = false) lines
  | Failed EmptyResult =>
      ∃ dn, find_dataname lines = Some dn
            ∧ Forall (fun raw =>
                        unusable dn (col_indices (select_columns need (data_headers dn)))
                                 raw = true)
                     (drop (data_start_line dn + 1) lines)
  | Parsed t =>
      ∃ dn, find_dataname lines = Some dn
            ∧ Exists (fun raw =>
                        unusable dn (col_indices (select_columns need (data_headers dn)))
                                 raw = false)
                     (drop (data_start_line dn + 1) lines)
  end.
Proof.
  destruct (find_dataname lines) as [dn|] eqn:Hdn.
  - rewrite (read_data_file_outcome parse _ _ _ _ Hdn). unfold outcome_of. cbn zeta.
    destruct (data_rows _) as [|row rows] eqn:Hrows.
    + exists dn. split; [done|]. by eapply collect_rows_empty.
    + exists dn. split; [done|]. eapply collect_rows_some. by rewrite Hrows.
  - unfold read_data_file. rewrite Hdn. cbn [snd].
    unfold find_dataname, find_line in Hdn.
    destruct (find_line_from _ 0 lines) as [[i line]|] eqn:Hfind; [done|].
    by apply find_line_from_None in Hfind.
Qed.

(** ** Lines before the DataName line *)

Lemma find_line_from_shift (P : string → bool) (i k : nat) (lines : list string) :
  find_line_from P (i + k) lines = shift_line k <$> find_line_from P i lines.
Proof.
  revert i. induction lines as [|raw lines IH]; intros i; [done|].
  cbn [find_line_from]. destruct (P (Py.strip raw)); [done|].
  apply (IH (S i)).
Qed.

Lemma find_line_from_app (P : string → bool) (i : nat) (pre lines : list string) :
  Forall (fun raw => P (Py.strip raw) = false) pre →
  find_line_from P i (pre ++ lines) = find_line_from P (i + length pre) lines.
Proof.
  revert i. induction pre as [|raw pre IH]; intros i Hpre.
  - cbn. by rewrite Nat.add_0_r.
  - apply Forall_cons in Hpre as [Hraw Hpre]. cbn [app find_line_from length].
    rewrite Hraw, (IH (S i) Hpre). f_equal. lia.
Qed.

Lemma process_line_same_rows dn dn' idx i i' raw :
  delimiter dn = delimiter dn' → data_headers dn = data_headers dn' →
  match process_line dn idx i raw, process_line dn' idx i' raw with
  | Skipped _, Skipped _ => True
  | Kept _ row, Kept _ row' => row = row'
  | _, _ => False
  end.
Proof.
  intros Hd Hh. unfold process_line. cbn zeta. rewrite Hd, Hh.
  destruct (Py.is_empty _); [done|].
  destruct (Py.startswith_any _ _); [done|].
  destruct (negb _); [done|].
  destruct (length _ <? 2); [done|].
  by destruct (has_data _).
Qed.

Lemma collect_rows_same_rows dn dn' idx i i' rest :
  delimiter dn = delimiter dn' → data_headers dn = data_headers dn' →
  data_rows (collect_rows dn idx i rest) = data_rows (collect_rows dn' idx i' rest)
  ∧ skipped_rows (collect_rows dn idx i rest)
    = skipped_rows (collect_rows dn' idx i' rest).
Proof.
  intros Hd Hh. revert i i'. induction rest as [|raw rest IH]; intros i i'; [done|].
  cbn [collect_rows]. destruct (IH (S i) (S i')) as [Hrows Hskip].
  pose proof (process_line_same_rows dn dn' idx i i' raw Hd Hh) as Hline.
  destruct (process_line dn idx i raw), (process_line dn' idx i' raw);
    try done; cbn [data_rows skipped_rows]; by rewrite ?Hline, Hrows, Hskip.
Qed.

(** X9: lines put before the DataName line, none of which begins with
    DataName once trimmed, change nothing in the outcome: the table or the
    failure is that of the file without them. In particular DataValue lines
    above the DataName line are never read as data. *)
Theorem lines_before_dataname_are_ignored {F : Type} (parse : string → option F)
        (pre lines : list string) (need : option (list string)) (self : Processor) :
  Forall (fun raw => Py.startswith "DataName" (Py.strip raw) = false) pre →
  (read_data_file parse (Some (pre ++ lines)) need self).2
  = (read_data_file parse (Some lines) need self).2.
Proof.
  intros Hpre.
  assert (Hfind : find_line (Py.startswith "DataName") (pre ++ lines)
                  = shift_line (length pre) <$> find_line (Py.startswith "DataName") lines).
  { unfold find_line. rewrite (find_line_from_app _ 0 _ _ Hpre).
    apply (find_line_from_shift _ 0). }
  destruct (find_dataname lines) as [dn|] eqn:Hdn.
  - assert (Hdn' : find_dataname (pre ++ lines)
                   = Some {| data_start_line := data_start_line dn + length pre;
                             delimiter := delimiter dn;
                             data_headers := data_headers dn |}).
    { unfold find_dataname in *. rewrite Hfind.
      destruct (find_line _ lines) as [[i line]|]; [|done].
      injection Hdn as <-. done. }
    rewrite (read_data_file_outcome parse _ _ _ _ Hdn).
    rewrite (read_data_file_outcome parse _ _ _ _ Hdn').
    unfold outcome_of. cbn [data_start_line data_headers]. cbn zeta.
    replace (drop (data_start_line dn + length pre + 1) (pre ++ lines))
      with (drop (data_start_line dn + 1) lines).
    2:{ replace (data_start_line dn + length pre + 1)
          with (length pre + (data_start_line dn + 1)) by lia.
        by rewrite drop_app_add. }
    set (idx := col_indices (select_columns need (data_headers dn))).
    set (rest := drop (data_start_line dn + 1) lines).
    edestruct (collect_rows_same_rows
                 {| data_start_line := data_start_line dn + length pre;
                    delimiter := delimiter dn; data_headers := data_headers dn |}
                 dn idx (data_start_line dn + length pre + 1)
                 (data_start_line dn + 1) rest) as [-> ->]; done.
  - unfold read_data_file.
    assert (Hnone : find_dataname (pre ++ lines) = None).
    { unfold find_dataname in *. rewrite Hfind.
      by destruct (find_line _ lines) as [[i line]|]. }
    by rewrite Hdn, Hnone.
Qed.

Lemma lines_before_dataname_are_ignored_witness :
  (read_data_file parse_decimal
     (Some ([ln "DataValue,1,2"; ln "AnalysisSetup,Datum.Name,Temp"] ++ two_column_file))
     None cleared).2
  = (read_data_file parse_decimal (Some two_column_file) None cleared).2.
Proof.
  apply (lines_before_dataname_are_ignored parse_decimal
           [ln "DataValue,1,2"; ln "AnalysisSetup,Datum.Name,Temp"] two_column_file
           None cleared).
  repeat constructor.
Defined.

(** ** Where the units come from *)

Lemma dict_update_lookup_Some (d : gmap string string)
      (items : list (string * string)) (k v : string) :
  dict_update d items !! k = Some v → (k, v) ∈ items ∨ d !! k = Some v.
Proof.
  unfold dict_update. revert d. induction items as [|[k' v'] items IH]; intros d.
  - by right.
  - cbn [fold_left fst snd]. intros [H|H]%IH.
    + left. by apply list_elem_of_further.
    + destruct (decide (k' = k)) as [->|Hne].
      * rewrite lookup_insert_eq in H. injection H as ->. left. apply list_elem_of_here.
      * rewrite lookup_insert_ne in H by done. by right.
Qed.

Lemma dict_update_app (d : gmap string string) (l1 l2 : list (string * string)) :
  dict_update d (l1 ++ l2) = dict_update (dict_update d l1) l2.
Proof. unfold dict_update. apply fold_left_app. Qed.

Lemma dict_update_lookup_absent (d : gmap string string)
      (items : list (string * string)) (k : string) :
  (∀ v, (k, v) ∉ items) → dict_update d items !! k = d !! k.
Proof.
  unfold dict_update. revert d. induction items as [|[k' v'] items IH]; intros d Habs.
  - done.
  - cbn [fold_left fst snd]. rewrite IH.
    + apply lookup_insert_ne. intros ->. apply (Habs v'), list_elem_of_here.
    + intros v Hv. by apply (Habs v), list_elem_of_further.
Qed.

Lemma dict_update_last_wins (d : gmap string string)
      (items rest : list (string * string)) (k v : string) :
  (∀ v', (k, v') ∉ rest) →
  dict_update d (items ++ (k, v) :: rest) !! k = Some v.
Proof.
  intros Habs. rewrite dict_update_app.
  change ((k, v) :: rest) with ([(k, v)] ++ rest). rewrite dict_update_app.
  rewrite dict_update_lookup_absent by done.
  unfold dict_update at 1. cbn [fold_left fst snd]. apply lookup_insert_eq.
Qed.

(** X10: every entry of the unit mapping comes from the declaration: its
    name is a non-empty trimmed field of the names line, its unit a
    non-empty trimmed field of the unit line found by the lookahead, and the
    two are paired by the zip. Without a names line, or without a unit line
    in the lookahead, the mapping has no entry. *)
Theorem units_come_from_the_declaration (lines : list string) (col u : string) :
  discover_units lines !! col = Some u →
  ∃ i line j unit_line,
    find_line is_datum_name_line lines = Some (i, line)
    ∧ find_unit_line lines i = Some (j, unit_line)
    ∧ (col, u) ∈ datum_pairs (_detect_delimiter line) line unit_line
    ∧ col ∈ stripped_nonempty (raw_fields (_detect_delimiter line) line)
    ∧ u ∈ stripped_nonempty (raw_fields (_detect_delimiter line) unit_line).
Proof.
  intros Hu.
  destruct (find_line is_datum_name_line lines) as [[i line]|] eqn:Hname.
  - rewrite (discover_units_found _ _ _ Hname) in Hu.
    destruct (find_unit_line lines i) as [[j unit_line]|] eqn:Hunit;
      [|by rewrite lookup_empty in Hu].
    apply dict_update_lookup_Some in Hu as [Hin|Hu]; [|by rewrite lookup_empty in Hu].
    exists i, line, j, unit_line. split_and!; [done..| |].
    + rewrite datum_pairs_zip in Hin. by apply elem_of_zip_l in Hin.
    + rewrite datum_pairs_zip in Hin. by apply elem_of_zip_r in Hin.
  - unfold discover_units in Hu. rewrite Hname in Hu. by rewrite lookup_empty in Hu.
Qed.

Lemma units_come_from_the_declaration_witness :
  ∃ i line j unit_line,
    find_line is_datum_name_line two_column_file = Some (i, line)
    ∧ find_unit_line two_column_file i = Some (j, unit_line)
    ∧ ("Pressure", "kPa") ∈ datum_pairs (_detect_delimiter line) line unit_line
    ∧ "Pressure" ∈ stripped_nonempty (raw_fields (_detect_delimiter line) line)
    ∧ "kPa" ∈ stripped_nonempty (raw_fields (_detect_delimiter line) unit_line).
Proof.
  apply (units_come_from_the_declaration two_column_file "Pressure" "kPa").
  vm_compute. reflexivity.
Defined.

(** X11: when the names line declares a name more than once, the unit kept
    for it is the one paired with its last occurrence; a name the zip does
    not pair has no unit. *)
Theorem last_declared_unit_wins (lines : list string) (i j : nat)
        (line unit_line : string) (items rest : list (string * string))
        (col u : string) :
  find_line is_datum_name_line lines = Some (i, line) →
  find_unit_line lines i = Some (j, unit_line) →
  datum_pairs (_detect_delimiter line) line unit_line = items ++ (col, u) :: rest →
  (∀ u', (col, u') ∉ rest) →
  discover_units lines !! col = Some u
  ∧ ∀ other, (∀ u', (other, u') ∉ items ++ (col, u) :: rest) →
             discover_units lines !! other = None.
Proof.
  intros Hname Hunit Hpairs Hlast.
  rewrite (discover_units_found _ _ _ Hname), Hunit, Hpairs. split.
  - by apply dict_update_last_wins.
  - intros other Habs. by rewrite dict_update_lookup_absent.
Qed.

Lemma last_declared_unit_wins_witness :
  discover_units repeated_name_file !! "T" = Some "K"
  ∧ ∀ other, (∀ u', (other, u') ∉ [("T", "C"); ("P", "kPa")] ++ ("T", "K") :: []) →
             discover_units repeated_name_file !! other = None.
Proof.
  apply (last_declared_unit_wins repeated_name_file 0 1
           "AnalysisSetup,Datum.Name,T,P,T" "AnalysisSetup,Datum.Unit,C,kPa,K"
           [("T", "C"); ("P", "kPa")] [] "T" "K");
    [reflexivity | reflexivity | reflexivity |].
  intros u'. apply not_elem_of_nil.
Defined.

(** ** Numeric columns *)

(** X12: in a parsed table, a column whose label no other selected column
    carries is numeric: row by row it holds what the number parser makes of
    the collected string, the missing value where the string does not parse
    (an empty string, or any text). *)
Theorem uniquely_named_columns_are_numeric {F : Type} (parse : string → option F)
        (lines : list string) (need : option (list string)) (self : Processor)
        (dn : DataName) (t : Table F) (p : nat) (col : string) :
  find_dataname lines = Some dn →
  (read_data_file parse (Some lines) need self).2 = Parsed t →
  columns t !! p = Some col →
  length (List.filter (String.eqb col) (columns t)) = 1 →
  df t !! p
  = Some (col,
          NumCol (map (fun row => parse (default EmptyString (row !! p)))
                      (data_rows
                         (collect_rows dn
                            (col_indices (select_columns need (data_headers dn)))
                            (data_start_line dn + 1)
                            (drop (data_start_line dn + 1) lines))))).
Proof.
  intros Hdn Hread Hp Hone.
  rewrite (read_data_file_outcome parse _ _ _ _ Hdn) in Hread.
  unfold outcome_of in Hread. cbn zeta in Hread.
  destruct (data_rows _) as [|row rows]; [done|].
  injection Hread as <-. cbn [df columns] in *.
  by apply convert_types_unique_label.
Qed.

Lemma uniquely_named_columns_are_numeric_witness :
  df pressure_temp_table !! 1
  = Some ("Temp",
          NumCol (map (fun row => parse_decimal (default EmptyString (row !! 1)))
                      (data_rows
                         (collect_rows two_columns
                            (col_indices (select_columns (Some ["Pressure"; "Temp"])
                                                         (data_headers two_columns)))
                            (data_start_line two_columns + 1)
                            (drop (data_start_line two_columns + 1) two_column_file))))).
Proof.
  apply (uniquely_named_columns_are_numeric parse_decimal two_column_file
           (Some ["Pressure"; "Temp"]) cleared two_columns pressure_temp_table 1 "Temp");
    reflexivity.
Defined.

(** * The names given to workbooks *)

Lemma string_length_app (a b : string) :
  String.length (a +:+ b) = String.length a + String.length b.
Proof.
  induction a as [|c a IH]; [done|].
  change (String c a +:+ b) with (String c (a +:+ b)).
  cbn [String.length]. by rewrite IH.
Qed.

Lemma substring_length_le (n m : nat) (s : string) :
  String.length (String.substring n m s) ≤ m.
Proof.
  revert n m. induction s as [|c s IH]; intros n m.
  - destruct n, m; cbn; lia.
  - destruct n as [|n]; cbn [String.substring].
    + destruct m as [|m]; cbn [String.length]; [lia|]. specialize (IH 0 m). lia.
    + apply IH.
Qed.

Lemma string_forall_app (P : ascii → bool) (a b : string) :
  string_forall P (a +:+ b) = string_forall P a && string_forall P b.
Proof.
  induction a as [|c a IH]; [done|].
  change (String c a +:+ b) with (String c (a +:+ b)).
  cbn [string_forall]. by rewrite IH, andb_assoc.
Qed.

Lemma string_forall_substring (P : ascii → bool) (n m : nat) (s : string) :
  string_forall P s = true → string_forall P (String.substring n m s) = true.
Proof.
  revert n m. induction s as [|c s IH]; intros n m Hs.
  - by destruct n, m.
  - cbn [string_forall] in Hs. apply andb_true_iff in Hs as [Hc Hs].
    destruct n as [|n]; cbn [String.substring].
    + destruct m as [|m]; [done|]. cbn [string_forall]. by rewrite Hc, IH.
    + by apply IH.
Qed.

Lemma string_forall_lstrip (P : ascii → bool) (s : string) :
  string_forall P s = true → string_forall P (Py.lstrip s) = true.
Proof.
  induction s as [|c s IH]; [done|]. intros Hs. cbn [Py.lstrip].
  destruct (Py.isspace c); [|done].
  cbn [string_forall] in Hs. apply andb_true_iff in Hs as [_ Hs]. by apply IH.
Qed.

Lemma string_forall_rstrip (P : ascii → bool) (s : string) :
  string_forall P s = true → string_forall P (Py.rstrip s) = true.
Proof.
  induction s as [|c s IH]; [done|]. intros Hs. cbn [Py.rstrip].
  cbn [string_forall] in Hs. apply andb_true_iff in Hs as [Hc Hs].
  destruct (Py.isspace c && Py.is_empty (Py.rstrip s)); [done|].
  cbn [string_forall]. by rewrite Hc, IH.
Qed.

Lemma string_forall_strip (P : ascii → bool) (s : string) :
  string_forall P s = true → string_forall P (Py.strip s) = true.
Proof. intros Hs. by apply string_forall_rstrip, string_forall_lstrip. Qed.

Lemma sub_unsafe_safe (s : string) : string_forall is_safe_char (sub_unsafe s) = true.
Proof.
  induction s as [|c s IH]; [done|]. cbn [sub_unsafe string_forall]. rewrite IH.
  by destruct (is_safe_char c) eqn:Hc; [rewrite Hc|].
Qed.

Lemma collapse_underscores_forall (P : ascii → bool) (s : string) :
  string_forall P s = true → string_forall P (collapse_underscores s) = true.
Proof.
  induction s as [|c s IH]; [done|]. intros Hs. cbn [string_forall] in Hs.
  apply andb_true_iff in Hs as [Hc Hs]. specialize (IH Hs).
  cbn [collapse_underscores].
  destruct (Ascii.eqb c "_"); [|by cbn [string_forall]; rewrite Hc].
  destruct s as [|c' s']; [by cbn [string_forall]; rewrite Hc|].
  destruct (Ascii.eqb c' "_"); [done|]. cbn [string_forall]. by rewrite Hc.
Qed.

Lemma all_space_false_strip (s : string) :
  all_space s = false → Py.strip s ≠ EmptyString.
Proof.
  intros Hs. unfold Py.strip.
  assert (Hl : Py.lstrip s ≠ EmptyString).
  { induction s as [|c s IH]; [done|]. cbn [all_space] in Hs. cbn [Py.lstrip].
    destruct (Py.isspace c); [by apply IH|done]. }
  pose proof (lstrip_head s) as Hhead.
  destruct (Py.lstrip s) as [|c r]; [done|]. by rewrite (rstrip_head _ _ Hhead).
Qed.

(** The name before the final [strip]. *)
Lemma get_safe_filename_cases (os : OS) (filename : string) (max_length : nat) :
  ∃ safe_name,
    get_safe_filename os filename max_length = Py.strip safe_name
    ∧ string_forall is_safe_char safe_name = true
    ∧ all_space safe_name = false
    ∧ String.length safe_name ≤ Nat.max (max_length + 5) 8.
Proof.
  unfold get_safe_filename. cbn zeta.
  set (s2 := collapse_underscores (sub_unsafe (splitext os filename).1)).
  assert (H2 : string_forall is_safe_char s2 = true)
    by apply collapse_underscores_forall, sub_unsafe_safe.
  set (s3 := if max_length <? String.length s2
             then String.substring 0 max_length s2 else s2).
  assert (H3 : string_forall is_safe_char s3 = true
               ∧ String.length s3 ≤ max_length).
  { subst s3. destruct (Nat.ltb_spec max_length (String.length s2)).
    - split; [by apply string_forall_substring|].
      apply substring_length_le.
    - done. }
  destruct H3 as [H3 H3len].
  set (s4 := match s3 with
             | String c _ => if isdigit c then "Data_" +:+ s3 else s3
             | EmptyString => s3
             end).
  assert (H4 : string_forall is_safe_char s4 = true
               ∧ String.length s4 ≤ max_length + 5).
  { subst s4. destruct s3 as [|c r] eqn:Hs3; [split; [done|lia]|].
    destruct (isdigit c).
    - split; [by rewrite string_forall_app, H3|].
      rewrite string_length_app. cbn [String.length] in *. lia.
    - split; [done|lia]. }
  destruct H4 as [H4 H4len].
  destruct (Py.is_empty s4 || str_isspace s4) eqn:Hb.
  - exists "DataBook". split_and!; [done..|]. cbn. lia.
  - exists s4. apply orb_false_iff in Hb as [He Hsp]. unfold str_isspace in Hsp.
    rewrite He in Hsp. cbn [negb andb] in Hsp. split_and!; [done..|lia].
Qed.

Lemma strip_length (s : string) : String.length (Py.strip s) ≤ String.length s.
Proof.
  unfold Py.strip.
  assert (Hl : String.length (Py.lstrip s) ≤ String.length s).
  { induction s as [|c s IH]; [done|]. cbn [Py.lstrip].
    destruct (Py.isspace c); cbn [String.length] in *; lia. }
  assert (Hr : ∀ x, String.length (Py.rstrip x) ≤ String.length x).
  { induction x as [|c x IH]; [done|]. cbn [Py.rstrip].
    destruct (Py.isspace c && Py.is_empty (Py.rstrip x)); cbn [String.length]; lia. }
  specialize (Hr (Py.lstrip s)). lia.
Qed.

(** X13: the workbook name made from any file name is never empty, carries
    no whitespace at either end, holds only word characters, whitespace
    and hyphens, and is at most five characters longer than [max_length]
    (or, for the fallback name, eight characters long). *)
Theorem safe_filename_is_well_formed (os : OS) (filename : string) (max_length : nat) :
  let name := get_safe_filename os filename max_length in
  name ≠ EmptyString
  ∧ Py.strip name = name
  ∧ string_forall is_safe_char name = true
  ∧ String.length name ≤ Nat.max (max_length + 5) 8.
Proof.
  intros name. subst name.
  destruct (get_safe_filename_cases os filename max_length)
    as (safe_name & -> & Hsafe & Hspace & Hlen).
  split_and!.
  - by apply all_space_false_strip.
  - apply strip_idem.
  - by apply string_forall_strip.
  - pose proof (strip_length safe_name). lia.
Qed.

Lemma splitext_root_head (os : OS) (c : ascii) (r : string) :
  ∃ r', (splitext os (String c r)).1 = String c r'.
Proof.
  unfold splitext. cbn zeta.
  destruct (rfind is_dot (String c r)) as [dotIndex|]; [|by eexists].
  destruct (_ && _) eqn:Hcond; [|by eexists].
  apply andb_true_iff in Hcond as [_ Hex].
  destruct dotIndex as [|d].
  - unfold Py.range in Hex. by rewrite Nat.sub_0_l in Hex.
  - cbn [fst String.substring]. by eexists.
Qed.

Lemma collapse_underscores_step (c c' : ascii) (s : string) :
  collapse_underscores (String c (String c' s))
  = if Ascii.eqb c "_"%char then
      if Ascii.eqb c' "_"%char then collapse_underscores (String c' s)
      else String c (collapse_underscores (String c' s))
    else String c (collapse_underscores (String c' s)).
Proof. reflexivity. Qed.

Lemma collapse_underscores_head (c : ascii) (s : string) :
  ∃ r, collapse_underscores (String c s) = String c r.
Proof.
  revert c. induction s as [|c' s IH]; intros c.
  - cbn [collapse_underscores]. destruct (Ascii.eqb c "_"); by eexists.
  - rewrite collapse_underscores_step.
    destruct (Ascii.eqb c "_") eqn:Hc; [|by eexists].
    destruct (Ascii.eqb c' "_") eqn:Hc'; [|by eexists].
    apply Ascii.eqb_eq in Hc as ->. apply Ascii.eqb_eq in Hc' as ->. apply IH.
Qed.

Lemma strip_keeps_head (c : ascii) (r : string) :
  Py.isspace c = false → ∃ r', Py.strip (String c r) = String c r'.
Proof.
  intros Hc. unfold Py.strip. cbn [Py.lstrip]. rewrite Hc, (rstrip_head _ _ Hc).
  by eexists.
Qed.

(** X14: for a file name that does not begin with whitespace, the workbook
    name does not begin with a digit. *)
Theorem safe_filename_has_no_leading_digit
        (os : OS) (filename : string) (max_length : nat) :
  head_is Py.isspace filename = false →
  head_is isdigit (get_safe_filename os filename max_length) = false.
Proof.
  intros Hhead. destruct filename as [|c r]; [by destruct os|].
  cbn [head_is] in Hhead. unfold get_safe_filename. cbn zeta.
  destruct (splitext_root_head os c r) as [r1 ->]. cbn [sub_unsafe].
  set (c' := if is_safe_char c then c else "_"%char).
  assert (Hc' : Py.isspace c' = false) by (subst c'; by destruct (is_safe_char c)).
  destruct (collapse_underscores_head c' (sub_unsafe r1)) as [r2 ->].
  set (s3 := if max_length <? _ then _ else _).
  assert (H3 : s3 = EmptyString ∨ ∃ r3, s3 = String c' r3).
  { subst s3. destruct (max_length <? _); [|by eauto].
    destruct max_length as [|m]; [by left|]. right. cbn [String.substring]. by eexists. }
  destruct H3 as [->|[r3 ->]]; [done|].
  destruct (isdigit c') eqn:Hdigit.
  - change ("Data_" +:+ String c' r3)
      with (String "D" (String "a" (String "t" (String "a" (String "_" (String c' r3)))))).
    cbn [Py.is_empty str_isspace all_space negb orb andb].
    change (Py.isspace "D") with false. cbn [andb].
    by destruct (strip_keeps_head "D" (String "a" (String "t" (String "a"
                   (String "_" (String c' r3))))) eq_refl) as [r' ->].
  - cbn [Py.is_empty str_isspace all_space negb orb andb]. rewrite Hc'. cbn [andb].
    destruct (strip_keeps_head c' r3 Hc') as [r' ->]. done.
Qed.

Lemma safe_filename_has_no_leading_digit_witness :
  head_is isdigit (get_safe_filename Windows "2024 run.csv" 30) = false.
Proof.
  apply (safe_filename_has_no_leading_digit Windows "2024 run.csv" 30). reflexivity.
Defined.

(** A file name that begins with whitespace can give a workbook name that
    begins with a digit: the digit is tested before the final strip. *)
Example safe_filename_leading_space :
  get_safe_filename Windows " 1.csv" 30 = "1".
Proof. reflexivity. Qed.

(** * Project files *)

Lemma rfind_app (P : ascii → bool) (a b : string) :
  rfind P (a +:+ b)
  = match rfind P b with
    | Some i => Some (String.length a + i)
    | None => rfind P a
    end.
Proof.
  induction a as [|c a IH].
  - change (EmptyString +:+ b) with b. by destruct (rfind P b).
  - change (String c a +:+ b) with (String c (a +:+ b)).
    cbn [rfind String.length]. rewrite IH. by destruct (rfind P b).
Qed.

Lemma rfind_lt (P : ascii → bool) (s : string) (i : nat) :
  rfind P s = Some i → i < String.length s.
Proof.
  revert i. induction s as [|c s IH]; intros i; [done|]. cbn [rfind String.length].
  destruct (rfind P s) as [j|].
  - intros [= <-]. specialize (IH j eq_refl). lia.
  - destruct (P c); [|done]. intros [= <-]. lia.
Qed.

Lemma substring_split (d : nat) (p : string) :
  d ≤ String.length p →
  p = String.substring 0 d p +:+ String.substring d (String.length p - d) p.
Proof.
  revert d. induction p as [|c p IH]; intros d Hd.
  - cbn in Hd. by replace d with 0 by lia.
  - destruct d as [|d].
    + cbn [String.substring String.length Nat.sub].
      change (EmptyString +:+ ?x) with x. f_equal.
      specialize (IH 0 (Nat.le_0_l _)). rewrite Nat.sub_0_r in IH.
      destruct p; [done|]. exact IH.
    + cbn [String.substring String.length Nat.sub].
      change (String c ?a +:+ ?b) with (String c (a +:+ b)). f_equal.
      apply IH. cbn [String.length] in Hd. lia.
Qed.

Lemma substring_prefix_length (d : nat) (p : string) :
  d ≤ String.length p → String.length (String.substring 0 d p) = d.
Proof.
  revert d. induction p as [|c p IH]; intros d Hd.
  - cbn in Hd. by replace d with 0 by lia.
  - destruct d as [|d]; [done|]. cbn [String.substring String.length] in *.
    f_equal. apply IH. lia.
Qed.

Lemma substring_app_l (a b : string) :
  String.substring 0 (String.length a) (a +:+ b) = a.
Proof.
  induction a as [|c a IH]; [by destruct b|].
  change (String c a +:+ b) with (String c (a +:+ b)).
  cbn [String.length String.substring]. by rewrite IH.
Qed.

Lemma substring_app_r (a b : string) :
  String.substring (String.length a) (String.length b) (a +:+ b) = b.
Proof.
  induction a as [|c a IH].
  - change (EmptyString +:+ b) with b. cbn [String.length].
    induction b as [|c b IHb]; [done|]. cbn [String.length String.substring].
    by rewrite IHb.
  - change (String c a +:+ b) with (String c (a +:+ b)).
    cbn [String.length String.substring]. exact IH.
Qed.

Lemma get_app_l (a b : string) (k : nat) :
  k < String.length a → String.get k (a +:+ b) = String.get k a.
Proof.
  revert k. induction a as [|c a IH]; intros k Hk; [cbn in Hk; lia|].
  change (String c a +:+ b) with (String c (a +:+ b)).
  destruct k as [|k]; [done|]. cbn [String.get]. apply IH. cbn in Hk. lia.
Qed.

Lemma existsb_not_dot_app (a b : string) (f : nat) :
  existsb (not_dot_at (a +:+ b)) (Py.range f (String.length a))
  = existsb (not_dot_at a) (Py.range f (String.length a)).
Proof.
  unfold Py.range.
  assert (H : ∀ n f, f + n ≤ String.length a →
              existsb (not_dot_at (a +:+ b)) (seq f n) = existsb (not_dot_at a) (seq f n)).
  { induction n as [|n IH]; intros f' Hf; [done|]. cbn [seq existsb].
    rewrite IH by lia. unfold not_dot_at at 1 3. by rewrite get_app_l by lia. }
  destruct (Nat.le_gt_cases f (String.length a)).
  - apply H. lia.
  - by replace (String.length a - f) with 0 by lia.
Qed.

Lemma lower_char_keeps_dots_and_separators (os : OS) (c : ascii) :
  is_dot (lower_char c) = is_dot c ∧ is_sep os (lower_char c) = is_sep os c.
Proof. by destruct os, c as [[] [] [] [] [] [] [] []]. Qed.

Lemma rfind_lower (P : ascii → bool) (s : string) :
  (∀ c, P (lower_char c) = P c) → rfind P (lower s) = rfind P s.
Proof.
  intros HP. induction s as [|c s IH]; [done|]. cbn [lower rfind]. by rewrite IH, HP.
Qed.

Lemma lower_length (s : string) : String.length (lower s) = String.length s.
Proof. induction s as [|c s IH]; [done|]. cbn. by rewrite IH. Qed.

Lemma valid_extension_shape (os : OS) (ext : string) :
  lower ext ∈ valid_extensions →
  rfind is_dot ext = Some 0 ∧ rfind (is_sep os) ext = None ∧ ext ≠ EmptyString.
Proof.
  intros Hext.
  rewrite <- (rfind_lower is_dot ext)
    by (intros c; apply (lower_char_keeps_dots_and_separators os)).
  rewrite <- (rfind_lower (is_sep os) ext)
    by (intros c; apply (lower_char_keeps_dots_and_separators os)).
  split_and!.
  - unfold valid_extensions in Hext.
    repeat (apply elem_of_cons in Hext as [->|Hext]; [reflexivity|]).
    by apply elem_of_nil in Hext.
  - unfold valid_extensions in Hext.
    repeat (apply elem_of_cons in Hext as [->|Hext]; [by destruct os|]).
    by apply elem_of_nil in Hext.
  - intros ->. unfold valid_extensions in Hext.
    repeat (apply elem_of_cons in Hext as [Hext|Hext]; [discriminate Hext|]).
    by apply elem_of_nil in Hext.
Qed.

(** X15: a path is taken for an Origin project file exactly when it ends
    with one of the six project extensions, in any mix of upper and lower
    case, and what stands before the extension has, in its last component,
    a character that is not a dot. So a name that is only an extension,
    such as .opju, is not a project file. *)
Theorem origin_project_files_are_recognised (os : OS) (p : string) :
  is_origin_project_file os p = true
  ↔ ∃ root ext, p = root +:+ ext
                ∧ lower ext ∈ valid_extensions
                ∧ names_a_file os root = true.
Proof.
  unfold is_origin_project_file. split.
  - destruct (Py.is_empty p); [done|].
    rewrite mem_elem_of. intros Hmem%bool_decide_eq_true.
    unfold splitext in Hmem. cbn zeta in Hmem. fold (filename_index os p) in Hmem.
    destruct (rfind is_dot p) as [d|] eqn:Hdot;
      [|by destruct (valid_extension_shape os EmptyString Hmem) as (_ & _ & Hne)].
    destruct (_ && _) eqn:Hcond;
      [|by destruct (valid_extension_shape os EmptyString Hmem) as (_ & _ & Hne)].
    cbn [snd] in Hmem. apply andb_true_iff in Hcond as [Hle%Nat.leb_le Hex].
    pose proof (rfind_lt _ _ _ Hdot) as Hd.
    set (root := String.substring 0 d p) in *.
    set (ext := String.substring d (String.length p - d) p) in *.
    assert (Hp : p = root +:+ ext) by (apply substring_split; lia).
    assert (Hlen : String.length root = d) by (apply substring_prefix_length; lia).
    exists root, ext. split_and!; [done..|].
    destruct (valid_extension_shape os ext Hmem) as (_ & Hsep & _).
    clearbody root ext. subst p d.
    unfold names_a_file. rewrite existsb_not_dot_app in Hex.
    unfold filename_index in *. by rewrite rfind_app, Hsep in Hex.
  - intros (root & ext & -> & Hext & Hname).
    destruct (valid_extension_shape os ext Hext) as (Hdot & Hsep & Hne).
    assert (Hempty : Py.is_empty (root +:+ ext) = false).
    { destruct root; [|done]. by destruct ext. }
    rewrite Hempty, mem_elem_of. apply bool_decide_eq_true.
    unfold splitext. cbn zeta. fold (filename_index os (root +:+ ext)).
    rewrite rfind_app, Hdot, Nat.add_0_r.
    assert (Hidx : filename_index os (root +:+ ext) = filename_index os root).
    { unfold filename_index. by rewrite rfind_app, Hsep. }
    rewrite Hidx, existsb_not_dot_app. unfold names_a_file in Hname. rewrite Hname.
    assert (Hle : (filename_index os root <=? String.length root) = true).
    { apply Nat.leb_le. unfold filename_index.
      destruct (rfind (is_sep os) root) as [i|] eqn:Hi; [|lia].
      apply rfind_lt in Hi. lia. }
    rewrite Hle. cbn [andb snd].
    rewrite string_length_app, Nat.add_comm, Nat.add_sub, substring_app_r. done.
Qed.



(** * The key:value configuration *)






Example needcol_with_bars :
  normalize_needcol (parse_pairs "data_file: run.csv, X: Time, Y: Temp, NeedCol: Time | Temp")
  !! "NeedCol"
  = Some (VList ["Time"; "Temp"]).
Proof. vm_compute. reflexivity. Qed.

(** In the key:value form the pairs are cut at the commas first, so of a
    NeedCol written with commas only the first name is kept. *)
Example needcol_with_commas :
  normalize_needcol (parse_pairs "data_file: run.csv, X: Time, Y: Temp, NeedCol: Time, Temp")
  !! "NeedCol"
  = Some (VList ["Time"]).
Proof. vm_compute. reflexivity. Qed.

(** * Rows in another delimiter *)

Lemma split_length (d : ascii) (s : string) :
  length (Py.split d s) = Py.count d s + 1.
Proof.
  induction s as [|c s IH]; [done|]. cbn [Py.split Py.count].
  destruct (Ascii.eqb c d); cbn [length]; [lia|].
  destruct (Py.split d s); cbn [length] in *; lia.
Qed.

(** X18: the data lines are split on the delimiter detected on the DataName
    line and on no other: a line in which that delimiter does not occur is
    never a data row, whatever else it holds. *)
Theorem line_without_the_delimiter_is_skipped
        (dn : DataName) (col_indices : list nat) (i : nat) (raw : string) :
  Py.count (delimiter dn) (Py.strip raw) = 0 →
  ∃ w, process_line dn col_indices i raw = Skipped w.
Proof.
  intros Hcount. apply process_line_unusable. unfold unusable. cbn zeta.
  rewrite split_length, Hcount. cbn [Nat.add Nat.ltb Nat.leb].
  by rewrite orb_true_r, !orb_true_l.
Qed.

Lemma line_without_the_delimiter_is_skipped_witness :
  ∃ w, process_line two_columns [0; 1] 3 (ln "DataValue;25.0;101.3") = Skipped w.
Proof.
  apply (line_without_the_delimiter_is_skipped two_columns [0; 1] 3
           (ln "DataValue;25.0;101.3")).
  reflexivity.
Defined.
